(** * LG PQRCUDS0 wired-controller bus decoder (HighLevelAnalyzer.py)

    A shallow embedding of the Saleae high-level analyzer that regroups the
    bytes of the LG control bus into 6-byte packets, checks their checksum,
    attributes them to the indoor unit or to the panel from their timing and
    decodes their fields.

    Python values are embedded as follows.
    - [bytes] objects are [list byte]; indexing one yields an [int], here [Z].
    - [dict]s with string keys are [gmap string value].
    - An exception is the [Raise] branch of [result]; statements are chained
      with the monadic bind of [result].
    - [GraphTime] and [GraphTimeDelta] come from the host application; both
      are counted here in nanoseconds, as an integer. *)

From Stdlib Require Import ZArith QArith Lia List Ascii String.
From Stdlib.Strings Require Import Byte.
From stdpp Require Import gmap strings list fin_maps.

Local Open Scope string_scope.
Local Open Scope list_scope.
Local Open Scope Z_scope.

(** ** Python values and exceptions *)

Inductive value : Type :=
| VStr (s : string)
| VInt (n : Z)
| VBool (b : bool)
| VFloat (q : Q)
| VBytes (bs : list byte).

Inductive exn : Type :=
| KeyError
| IndexError
| TypeError
| ValueError.

Inductive result (A : Type) : Type :=
| Ok (a : A)
| Raise (e : exn).

Arguments Ok {A} a.
Arguments Raise {A} e.

#[global] Instance result_ret : MRet result := fun A a => Ok a.
#[global] Instance result_bind : MBind result := fun A B f m =>
  match m with
  | Ok a => f a
  | Raise e => Raise e
  end.

(** ** [bytes] objects *)

Definition int_of_byte (b : byte) : Z := Z.of_N (Byte.to_N b).

(** [bytes(ints)]: every item must be in [range(256)]. *)
Definition byte_of_int (n : Z) : result byte :=
  if (0 <=? n) && (n <? 256) then
    match Byte.of_N (Z.to_N n) with
    | Some b => Ok b
    | None => Raise ValueError
    end
  else Raise ValueError.

Fixpoint bytes (ints : list Z) : result (list byte) :=
  match ints with
  | [] => Ok []
  | n :: ints' =>
      b ← byte_of_int n;
      bs ← bytes ints';
      Ok (b :: bs)
  end.

(** [data[i]] for a non-negative constant index. *)
Definition getitem (data : list byte) (i : nat) : result Z :=
  match data !! i with
  | Some b => Ok (int_of_byte b)
  | None => Raise IndexError
  end.

(** [data[i:j]] for non-negative constant bounds. *)
Definition slice {A} (data : list A) (i j : nat) : list A :=
  take (j - i) (drop i data).

(** [data[-1]] and [data[:-1]]. *)
Definition getitem_last {A} (data : list A) : result A :=
  match last data with
  | Some x => Ok x
  | None => Raise IndexError
  end.

Definition slice_but_last {A} (data : list A) : list A :=
  take (length data - 1) data.

(** [frames[i]] on a list, for a non-negative constant index. *)
Definition item {A} (frames : list A) (i : nat) : result A :=
  match frames !! i with
  | Some x => Ok x
  | None => Raise IndexError
  end.

Fixpoint bytes_eqb (a b : list byte) : bool :=
  match a, b with
  | [], [] => true
  | x :: a', y :: b' => Byte.eqb x y && bytes_eqb a' b'
  | _, _ => false
  end.

(** ** Rendering of numbers: [bytes.hex()], [hex(int)] and [str(int)] *)

Definition digit_char (d : Z) : ascii :=
  ascii_of_N (Z.to_N (if d <? 10 then 48 + d else 87 + d)).

(** The digits of [n > 0] in [base], most significant first, in front of
    [acc]; [fuel] bounds the number of digits. *)
Fixpoint digits (fuel : nat) (base n : Z) (acc : string) : string :=
  match fuel with
  | O => acc
  | S fuel' =>
      let acc' := String (digit_char (n mod base)) acc in
      if n / base =? 0 then acc' else digits fuel' base (n / base) acc'
  end.

Definition render (base : Z) (prefix : string) (n : Z) : string :=
  let body := digits (S (Z.to_nat (Z.log2 (Z.abs n)))) base (Z.abs n) "" in
  String.append (if n <? 0 then "-" else "") (String.append prefix body).

(** [hex(n)] *)
Definition hex (n : Z) : string := render 16 "0x" n.

(** [str(n)] for an [int]. *)
Definition str (n : Z) : string := render 10 "" n.

(** [data.hex()] *)
Definition hex_byte (b : byte) : string :=
  let n := int_of_byte b in
  String (digit_char (n / 16)) (String (digit_char (n mod 16)) "").

Fixpoint bytes_hex (data : list byte) : string :=
  match data with
  | [] => ""
  | b :: data' => String.append (hex_byte b) (bytes_hex data')
  end.

(** ** Time of the host application *)

Definition GraphTime : Type := Z.

(** [GraphTimeDelta(second=..., millisecond=...)]: the two arguments the
    program uses; [second] is also the first positional argument. *)
Definition GraphTimeDelta (second millisecond : Z) : Z :=
  second * 1000000000 + millisecond * 1000000.

Record AnalyzerFrame : Type := mkAnalyzerFrame {
  type : string;
  start_time : GraphTime;
  end_time : GraphTime;
  data : gmap string value;
}.

(** ** Module constants *)

(** [_PACKETS_DISTANCE = GraphTimeDelta(1)] *)
Definition _PACKETS_DISTANCE : Z := GraphTimeDelta 1 0.

Definition _FAN_SPEED : gmap Z string :=
  <[0x00 := "low"]> (<[0x10 := "medium"]> (<[0x20 := "high"]> (<[0x40 := "power"]> ∅))).

Definition _MODE : gmap Z string :=
  <[0x00 := "Cool"]> (<[0x10 := "dH"]> (<[0x20 := "Fan"]> (<[0x40 := "Heat"]> ∅))).

(** [functools.reduce(operator.add, packet)]: no initial value, so an empty
    sequence is a [TypeError]. *)
Definition reduce_add (packet : list byte) : result Z :=
  match packet with
  | [] => Raise TypeError
  | b :: packet' => Ok (fold_left (fun acc x => acc + int_of_byte x) packet' (int_of_byte b))
  end.

Definition _checksum (packet : list byte) : result Z :=
  total ← reduce_add packet;
  Ok (Z.lxor (Z.land total 0xFF) 0x55).

(** ** Field decoders

    Both decoders update the dictionary they are given; the embedding
    returns the updated dictionary. They receive the whole packet, checksum
    byte included. *)

Definition annotate_hvac_packet (packet_data : list byte)
    (packet_attributes : gmap string value) : result (gmap string value) :=
  let packet_attributes := <["source" := VStr "HVAC"]> packet_attributes in
  b1 ← getitem packet_data 1;
  packet_attributes ←
    (if Z.land b1 0x80 =? 0 then
       t ← getitem packet_data 1;
       Ok (<["room_temperature" := VFloat (inject_Z t / 2 + 10)]> packet_attributes)
     else Ok packet_attributes);
  u0 ← getitem packet_data 0;
  u1 ← match packet_attributes !! "room_temperature" with
       | Some _ => Ok 0
       | None => getitem packet_data 1
       end;
  u2 ← getitem packet_data 2;
  u3 ← getitem packet_data 3;
  u4 ← getitem packet_data 4;
  unknown ← bytes [u0; u1; u2; u3; u4];
  Ok (<["unknown_data" := VBytes unknown]> packet_attributes).

Definition annotate_panel_packet (packet_data : list byte)
    (packet_attributes : gmap string value) : result (gmap string value) :=
  let packet_attributes := <["source" := VStr "Panel"]> packet_attributes in
  b0 ← getitem packet_data 0;
  if Z.land b0 0x90 =? 0x90 then
    let packet_attributes := <["features_inquiry" := VBool true]> packet_attributes in
    if negb (bytes_eqb (slice packet_data 1 4) [x00; x00; x00; x00]) then
      Ok (<["unknown_data" := VBytes ([x00] ++ slice packet_data 1 4)]> packet_attributes)
    else Ok packet_attributes
  else
    m ← getitem packet_data 0;
    let mode_val := Z.land m 0x70 in
    let packet_attributes :=
      <["mode" := VStr (default (hex mode_val) (_MODE !! mode_val))]> packet_attributes in
    r ← getitem packet_data 0;
    let packet_attributes :=
      <["resistor?" := VBool (negb (Z.land r 0x08 =? 0))]> packet_attributes in
    r ← getitem packet_data 0;
    let packet_attributes :=
      <["running" := VBool (negb (Z.land r 0x04 =? 0))]> packet_attributes in
    r ← getitem packet_data 0;
    let packet_attributes :=
      <["settings_changed" := VBool (negb (Z.land r 0x01 =? 0))]> packet_attributes in
    t ← getitem packet_data 1;
    let packet_attributes :=
      <["room_temperature" := VFloat (inject_Z t / 2 + 10)]> packet_attributes in
    p ← getitem packet_data 2;
    let packet_attributes :=
      <["plasma" := VBool (negb (Z.land p 0x80 =? 0))]> packet_attributes in
    f ← getitem packet_data 2;
    speed ← match _FAN_SPEED !! Z.land f 0x70 with
            | Some s => Ok s
            | None => Raise KeyError
            end;
    let packet_attributes := <["fan_speed" := VStr speed]> packet_attributes in
    s ← getitem packet_data 2;
    let packet_attributes :=
      <["set_temperature" := VStr (str (Z.land s 0x0F + 16))]> packet_attributes in
    w ← getitem packet_data 3;
    let packet_attributes :=
      <["swivel" := VBool (negb (Z.land w 0x20 =? 0))]> packet_attributes in
    w ← getitem packet_data 4;
    let packet_attributes :=
      <["swirl" := VBool (negb (Z.land w 0x01 =? 0))]> packet_attributes in
    u0 ← getitem packet_data 0;
    u3 ← getitem packet_data 3;
    u4 ← getitem packet_data 4;
    unknown ← bytes [Z.land u0 0x02; 0; 0;
                     Z.land u3 (Z.lnot 0x20); Z.land u4 (Z.lnot 0x01)];
    Ok (<["unknown_data" := VBytes unknown]> packet_attributes).

(** ** Packet emitter

    [last_end] is [None] or a [GraphTime]; in [if last_end] a [GraphTime] is
    true, whatever the instant. *)

(** [frame.data["data"]], which [packet_data += ...] needs to be [bytes]. *)
Definition frame_bytes (frame : AnalyzerFrame) : result (list byte) :=
  match data frame !! "data" with
  | Some (VBytes bs) => Ok bs
  | Some _ => Raise TypeError
  | None => Raise KeyError
  end.

Fixpoint concat_frames (packet_data : list byte)
    (packet_frames : list AnalyzerFrame) : result (list byte) :=
  match packet_frames with
  | [] => Ok packet_data
  | frame :: packet_frames' =>
      bs ← frame_bytes frame;
      concat_frames (packet_data ++ bs) packet_frames'
  end.

Definition recompose_packet (packet_frames : list AnalyzerFrame)
    (last_end : option GraphTime) : result AnalyzerFrame :=
  packet_data ← concat_frames [] packet_frames;
  received ← getitem_last packet_data;
  let received_checksum := int_of_byte received in
  calculated_checksum ← _checksum (slice_but_last packet_data);
  if negb (received_checksum =? calculated_checksum) then
    first ← item packet_frames 0;
    final ← getitem_last packet_frames;
    Ok (mkAnalyzerFrame "invalid_checksum" (start_time first) (end_time final)
          {["data" := VStr (bytes_hex packet_data)]})
  else
    let packet_attributes : gmap string value :=
      <["checksum" := VInt received_checksum]>
        {["data" := VStr (bytes_hex (slice_but_last packet_data))]} in
    packet_distance ←
      match last_end with
      | Some t =>
          first ← item packet_frames 0;
          Ok (start_time first - t)
      | None => Ok (GraphTimeDelta 30 0)
      end;
    packet_attributes ←
      (if packet_distance <? GraphTimeDelta 0 300 then
         annotate_hvac_packet packet_data packet_attributes
       else annotate_panel_packet packet_data packet_attributes);
    first ← item packet_frames 0;
    final ← getitem_last packet_frames;
    Ok (mkAnalyzerFrame "valid_packet" (start_time first) (end_time final)
          packet_attributes).

(** ** Frame aggregator: the analyzer object and its [decode] method *)

Record Hla : Type := mkHla {
  _last_start : option GraphTime;
  _last_end : option GraphTime;
  _packet : list AnalyzerFrame;
}.

Definition __init__ : Hla := mkHla None None [].

(** [decode] returns the analyzer as the call leaves it and what the call
    returns ([None], a frame) or raises. *)
Definition decode (self : Hla) (frame : AnalyzerFrame)
  : Hla * result (option AnalyzerFrame) :=
  if negb (String.eqb (type frame) "data") then (self, Ok None)
  else
    let packet :=
      match last (_packet self) with
      | Some previous =>
          if end_time frame - end_time previous >? _PACKETS_DISTANCE
          then []
          else _packet self
      | None => _packet self
      end in
    let packet := packet ++ [frame] in
    if Nat.eqb (length packet) 6 then
      match recompose_packet packet (_last_end self) with
      | Ok analyzed_frame =>
          (mkHla (_last_start self) (Some (end_time analyzed_frame)) [],
           Ok (Some analyzed_frame))
      | Raise e => (mkHla (_last_start self) (_last_end self) packet, Raise e)
      end
    else (mkHla (_last_start self) (_last_end self) packet, Ok None).

(** The host calls [decode] on every frame of the capture, in order. The
    outcome of each call is listed; after a call that raised, the next frame
    meets the analyzer as that call left it. *)
Fixpoint feed (self : Hla) (frames : list AnalyzerFrame)
  : list (result (option AnalyzerFrame)) :=
  match frames with
  | [] => []
  | frame :: frames' =>
      let '(self', out) := decode self frame in
      out :: feed self' frames'
  end.

(** A byte event of the serial analyzer: one byte between two instants. *)
Definition byte_event (b : byte) (t0 t1 : GraphTime) : AnalyzerFrame :=
  mkAnalyzerFrame "data" t0 t1 {["data" := VBytes [b]]}.

(** ** Reference definitions used in the statements *)

(** The checksum as the specification words it: the sum of the payload
    modulo 256, XOR 0x55. *)
Definition sum_bytes (payload : list byte) : Z :=
  fold_right (fun b acc => int_of_byte b + acc) 0 payload.

Definition spec_checksum (payload : list byte) : Z :=
  Z.lxor (sum_bytes payload mod 256) 0x55.

(** A frame of the serial analyzer that carries exactly the byte [b]. *)
Definition carries (frame : AnalyzerFrame) (b : byte) : Prop :=
  frame_bytes frame = Ok [b].

(** The distance [recompose_packet] classifies a packet by. *)
Definition classification_gap (start : GraphTime) (last_end : option GraphTime) : Z :=
  match last_end with
  | Some t => start - t
  | None => GraphTimeDelta 30 0
  end.

(** The attributes a valid packet starts from, before the decoders run. *)
Definition base_attributes (packet_data : list byte) : gmap string value :=
  <["checksum" := VInt (int_of_byte (List.last packet_data x00))]>
    {["data" := VStr (bytes_hex (slice_but_last packet_data))]}.

(** The analyzer after the host has given it [frames]. *)
Fixpoint final_state (self : Hla) (frames : list AnalyzerFrame) : Hla :=
  match frames with
  | [] => self
  | frame :: frames' => final_state (fst (decode self frame)) frames'
  end.

(** A run of byte events each of which ends at most [_PACKETS_DISTANCE]
    after the end of the one before it; [previous_end] is the end of the
    event before the run. *)
Fixpoint close_run (previous_end : GraphTime) (frames : list AnalyzerFrame) : Prop :=
  match frames with
  | [] => True
  | frame :: frames' =>
      type frame = "data" /\
      end_time frame - previous_end <= _PACKETS_DISTANCE /\
      close_run (end_time frame) frames'
  end.

(** The value of a hexadecimal digit, to read rendered text back. *)
Definition digit_value (c : ascii) : Z :=
  let n := Z.of_N (N_of_ascii c) in
  if n <? 58 then n - 48 else n - 87.

(** ** Captures used in the examples

    The bus runs at 104 baud: a byte lasts about 96 ms and the bytes of a
    packet follow each other every 100 ms. *)

Definition packet_events (p : list byte) (t : GraphTime) : list AnalyzerFrame :=
  imap (fun i b => byte_event b (t + Z.of_nat i * 100000000)
                     (t + Z.of_nat i * 100000000 + 96000000)) p.

(** The status packet of the panel: dehumidify, fan high, 21 degrees. *)
Definition panel_status : list byte := [x10; x28; x25; x00; x00; x08].
(** The same packet with a corrupted checksum. *)
Definition panel_corrupted : list byte := [x10; x28; x25; x00; x00; x09].
(** A reply of the indoor unit. *)
Definition unit_reply : list byte := [xaa; x28; x00; x00; x00; x87].
(** A status packet whose fan-speed code is 0x30, with its right checksum. *)
Definition panel_fan_0x30 : list byte := [x00; x28; x30; x00; x00; x0d].
(** A features inquiry whose bytes 1 to 3 are zero, with its right checksum. *)
Definition panel_inquiry_zero : list byte := [x90; x00; x00; x00; x00; xc5].

(** ** The embedding on the documented scenarios *)

Example hex_0x30 : hex 0x30 = "0x30" /\ hex 0 = "0x0" /\ hex 0x70 = "0x70".
Proof. repeat split; reflexivity. Qed.
Example str_21 : str 21 = "21" /\ str 0 = "0" /\ str 31 = "31" /\ str (-5) = "-5".
Proof. repeat split; reflexivity. Qed.
Example bytes_hex_ex : bytes_hex [x10; x28; x25; x00; x00; x09] = "102825000009".
Proof. reflexivity. Qed.
Example checksum_ex : _checksum [x10; x28; x25; x00; x00] = Ok 0x08.
Proof. reflexivity. Qed.
Example fan_ex : _FAN_SPEED !! 0x20 = Some "high" /\ _FAN_SPEED !! 0x30 = None.
Proof. split; reflexivity. Qed.

(** ** Bytes and integers *)

Lemma int_of_byte_range b : 0 <= int_of_byte b < 256.
Proof. destruct b; vm_compute; split; congruence. Qed.

Lemma byte_of_int_of_byte b : byte_of_int (int_of_byte b) = Ok b.
Proof. destruct b; reflexivity. Qed.

Lemma byte_of_int_land_byte b mask :
  exists b', byte_of_int (Z.land (int_of_byte b) mask) = Ok b'
             /\ int_of_byte b' = Z.land (int_of_byte b) mask.
Proof.
  assert (Hr : 0 <= Z.land (int_of_byte b) mask < 256).
  { pose proof (int_of_byte_range b) as Hb. split.
    - apply Z.land_nonneg. lia.
    - assert (Z.land (int_of_byte b) mask = Z.land (Z.land (int_of_byte b) mask) (Z.ones 8)) as ->.
      { rewrite <- Z.land_assoc, (Z.land_comm mask), Z.land_assoc.
        rewrite (Z.land_ones (int_of_byte b) 8) by lia.
        rewrite Z.mod_small by (change (2 ^ 8) with 256; lia). reflexivity. }
      rewrite Z.land_ones by lia. apply Z.mod_pos_bound. reflexivity. }
  unfold byte_of_int.
  destruct (Z.leb_spec 0 (Z.land (int_of_byte b) mask)); [|lia].
  destruct (Z.ltb_spec (Z.land (int_of_byte b) mask) 256); [|lia].
  simpl.
  destruct (Byte.of_N (Z.to_N (Z.land (int_of_byte b) mask))) as [b'|] eqn:Hof.
  - exists b'. split; [reflexivity|].
    apply Byte.to_of_N in Hof. unfold int_of_byte at 1. rewrite Hof.
    rewrite Z2N.id by lia. reflexivity.
  - apply Byte.of_N_None_iff in Hof. lia.
Qed.

Lemma fold_left_add_bytes (payload : list byte) (acc : Z) :
  fold_left (fun a x => a + int_of_byte x) payload acc = acc + sum_bytes payload.
Proof.
  revert acc. induction payload as [|b payload IH]; intros acc; simpl.
  - lia.
  - rewrite IH. lia.
Qed.

(** The code's checksum is the specification's, on every non-empty payload. *)
Lemma _checksum_spec (b : byte) (payload : list byte) :
  _checksum (b :: payload) = Ok (spec_checksum (b :: payload)).
Proof.
  unfold _checksum, spec_checksum, reduce_add. simpl.
  rewrite fold_left_add_bytes.
  change 255 with (Z.ones 8). rewrite Z.land_ones by lia.
  reflexivity.
Qed.

(** ** The result monad *)

Lemma bind_Ok_inv {A B} (m : result A) (k : A -> result B) (b : B) :
  (m ≫= k) = Ok b -> exists a, m = Ok a /\ k a = Ok b.
Proof. destruct m as [a|e]; simpl; [eauto | discriminate]. Qed.

Ltac bind_inv H :=
  let a := fresh "a" in
  let Ha := fresh "Ha" in
  apply bind_Ok_inv in H; destruct H as (a & Ha & H).

(** ** What [recompose_packet] does with six byte events *)

Lemma concat_frames_carries (frames : list AnalyzerFrame) (p acc : list byte) :
  Forall2 carries frames p -> concat_frames acc frames = Ok (acc ++ p).
Proof.
  intros H. revert acc.
  induction H as [|f b frames p Hfb _ IH]; intros acc; simpl.
  - rewrite app_nil_r. reflexivity.
  - rewrite Hfb. simpl. rewrite IH, <- app_assoc. reflexivity.
Qed.

Lemma recompose_packet_six f0 f1 f2 f3 f4 f5 b0 b1 b2 b3 b4 b5 last_end :
  Forall2 carries [f0; f1; f2; f3; f4; f5] [b0; b1; b2; b3; b4; b5] ->
  let p := [b0; b1; b2; b3; b4; b5] in
  recompose_packet [f0; f1; f2; f3; f4; f5] last_end =
    if negb (int_of_byte b5 =? spec_checksum [b0; b1; b2; b3; b4]) then
      Ok (mkAnalyzerFrame "invalid_checksum" (start_time f0) (end_time f5)
            {["data" := VStr (bytes_hex p)]})
    else
      attrs ← (if classification_gap (start_time f0) last_end <? GraphTimeDelta 0 300
               then annotate_hvac_packet p (base_attributes p)
               else annotate_panel_packet p (base_attributes p));
      Ok (mkAnalyzerFrame "valid_packet" (start_time f0) (end_time f5) attrs).
Proof.
  intros H p. unfold recompose_packet.
  rewrite (concat_frames_carries _ _ [] H).
  cbn [app mbind result_bind getitem_last last].
  change (slice_but_last [b0; b1; b2; b3; b4; b5]) with [b0; b1; b2; b3; b4].
  rewrite _checksum_spec.
  cbn [mbind result_bind item lookup list_lookup getitem_last last].
  destruct (negb (int_of_byte b5 =? spec_checksum [b0; b1; b2; b3; b4])); [reflexivity|].
  unfold classification_gap, base_attributes, p.
  destruct last_end as [t|]; reflexivity.
Qed.

(** ** The unit decoder *)

(** The attributes [recompose_packet] gives the decoders hold no room
    temperature yet. *)
Lemma base_attributes_fresh (packet_data : list byte) :
  base_attributes packet_data !! "room_temperature" = None.
Proof.
  unfold base_attributes.
  rewrite lookup_insert_ne by discriminate.
  apply lookup_singleton_ne. discriminate.
Qed.

Lemma land_0x80_testbit (b : byte) :
  (Z.land (int_of_byte b) 0x80 =? 0) = negb (Z.testbit (int_of_byte b) 7).
Proof. destruct b; reflexivity. Qed.

Lemma annotate_hvac_packet_reading b0 b1 b2 b3 b4 rest (attrs : gmap string value) :
  Z.testbit (int_of_byte b1) 7 = false ->
  annotate_hvac_packet (b0 :: b1 :: b2 :: b3 :: b4 :: rest) attrs =
    Ok (<["unknown_data" := VBytes [b0; x00; b2; b3; b4]]>
          (<["room_temperature" := VFloat (inject_Z (int_of_byte b1) / 2 + 10)]>
             (<["source" := VStr "HVAC"]> attrs))).
Proof.
  intros Hbit. unfold annotate_hvac_packet, getitem.
  cbn [lookup list_lookup mbind result_bind].
  rewrite land_0x80_testbit, Hbit. cbn [negb mbind result_bind].
  rewrite lookup_insert_eq. cbn [mbind result_bind bytes].
  rewrite !byte_of_int_of_byte. reflexivity.
Qed.

Lemma annotate_hvac_packet_no_reading b0 b1 b2 b3 b4 rest (attrs : gmap string value) :
  Z.testbit (int_of_byte b1) 7 = true ->
  attrs !! "room_temperature" = None ->
  annotate_hvac_packet (b0 :: b1 :: b2 :: b3 :: b4 :: rest) attrs =
    Ok (<["unknown_data" := VBytes [b0; b1; b2; b3; b4]]>
          (<["source" := VStr "HVAC"]> attrs)).
Proof.
  intros Hbit Hfresh. unfold annotate_hvac_packet, getitem.
  cbn [lookup list_lookup mbind result_bind].
  rewrite land_0x80_testbit, Hbit. cbn [negb mbind result_bind].
  rewrite lookup_insert_ne by discriminate. rewrite Hfresh.
  cbn [mbind result_bind bytes].
  rewrite !byte_of_int_of_byte. reflexivity.
Qed.

Lemma annotate_hvac_packet_source packet_data (attrs attrs' : gmap string value) :
  annotate_hvac_packet packet_data attrs = Ok attrs' ->
  attrs' !! "source" = Some (VStr "HVAC").
Proof.
  unfold annotate_hvac_packet. intros H.
  bind_inv H. bind_inv H. repeat bind_inv H.
  injection H as <-.
  rewrite lookup_insert_ne by discriminate.
  destruct (Z.land a 128 =? 0).
  - bind_inv Ha0. injection Ha0 as <-.
    rewrite lookup_insert_ne by discriminate. apply lookup_insert_eq.
  - injection Ha0 as <-. apply lookup_insert_eq.
Qed.

(** ** The panel decoder *)

Lemma bytes_eqb_length (a b : list byte) :
  bytes_eqb a b = true -> length a = length b.
Proof.
  revert b. induction a as [|x a IH]; intros [|y b]; simpl; try discriminate.
  - reflexivity.
  - intros H. apply andb_prop in H as [_ H]. f_equal. apply IH, H.
Qed.

(** The three-byte slice is compared with four zero bytes, which it never
    equals. *)
Lemma slice_1_4_never_four_zeros (packet_data : list byte) :
  bytes_eqb (slice packet_data 1 4) [x00; x00; x00; x00] = false.
Proof.
  destruct (bytes_eqb (slice packet_data 1 4) [x00; x00; x00; x00]) eqn:E; [|reflexivity].
  apply bytes_eqb_length in E. unfold slice in E.
  rewrite length_take in E. cbn [length] in E. lia.
Qed.

Lemma annotate_panel_packet_inquiry b0 packet_tail (attrs : gmap string value) :
  Z.land (int_of_byte b0) 0x90 = 0x90 ->
  annotate_panel_packet (b0 :: packet_tail) attrs =
    Ok (<["unknown_data" := VBytes (x00 :: take 3 packet_tail)]>
          (<["features_inquiry" := VBool true]>
             (<["source" := VStr "Panel"]> attrs))).
Proof.
  intros H. unfold annotate_panel_packet, getitem.
  cbn [lookup list_lookup mbind result_bind].
  rewrite H, Z.eqb_refl, slice_1_4_never_four_zeros.
  reflexivity.
Qed.

Lemma _FAN_SPEED_None (code : Z) :
  _FAN_SPEED !! code = None <-> code ∉ [0x00; 0x10; 0x20; 0x40].
Proof.
  unfold _FAN_SPEED. rewrite !lookup_insert_None, lookup_empty.
  rewrite !not_elem_of_cons.
  pose proof (not_elem_of_nil code). intuition congruence.
Qed.

(** No entry of the table for the fan-speed code: the decoder raises. *)
Lemma annotate_panel_packet_fan_KeyError b0 b1 b2 rest (attrs : gmap string value) :
  Z.land (int_of_byte b0) 0x90 <> 0x90 ->
  Z.land (int_of_byte b2) 0x70 ∉ [0x00; 0x10; 0x20; 0x40] ->
  annotate_panel_packet (b0 :: b1 :: b2 :: rest) attrs = Raise KeyError.
Proof.
  intros Hinq Hfan. unfold annotate_panel_packet, getitem.
  cbn [lookup list_lookup mbind result_bind].
  destruct (Z.eqb_spec (Z.land (int_of_byte b0) 144) 144) as [E|_]; [contradiction|].
  apply _FAN_SPEED_None in Hfan. rewrite Hfan. reflexivity.
Qed.

Lemma annotate_panel_packet_source packet_data (attrs attrs' : gmap string value) :
  annotate_panel_packet packet_data attrs = Ok attrs' ->
  attrs' !! "source" = Some (VStr "Panel").
Proof.
  unfold annotate_panel_packet. intros H.
  bind_inv H.
  destruct (Z.land a 144 =? 144).
  - destruct (negb _); injection H as <-;
      repeat (rewrite lookup_insert_ne by discriminate); apply lookup_insert_eq.
  - repeat bind_inv H. injection H as <-.
    repeat (rewrite lookup_insert_ne by discriminate). apply lookup_insert_eq.
Qed.

(** A status packet whose fan-speed code is in the table is decoded. *)
Lemma annotate_panel_packet_status_Ok b0 b1 b2 b3 b4 rest (attrs : gmap string value) :
  Z.land (int_of_byte b0) 0x90 <> 0x90 ->
  Z.land (int_of_byte b2) 0x70 ∈ [0x00; 0x10; 0x20; 0x40] ->
  exists attrs',
    annotate_panel_packet (b0 :: b1 :: b2 :: b3 :: b4 :: rest) attrs = Ok attrs'.
Proof.
  intros Hinq Hfan. unfold annotate_panel_packet, getitem.
  cbn [lookup list_lookup mbind result_bind].
  destruct (Z.eqb_spec (Z.land (int_of_byte b0) 144) 144) as [E|_]; [contradiction|].
  destruct (_FAN_SPEED !! Z.land (int_of_byte b2) 112) as [speed|] eqn:Hs.
  - cbn [mbind result_bind bytes].
    destruct (byte_of_int_land_byte b0 0x02) as (u0 & -> & _).
    destruct (byte_of_int_land_byte b3 (Z.lnot 0x20)) as (u3 & -> & _).
    destruct (byte_of_int_land_byte b4 (Z.lnot 0x01)) as (u4 & -> & _).
    eexists. reflexivity.
  - apply _FAN_SPEED_None in Hs. contradiction.
Qed.

Lemma annotate_hvac_packet_Ok b0 b1 b2 b3 b4 rest (attrs : gmap string value) :
  exists attrs',
    annotate_hvac_packet (b0 :: b1 :: b2 :: b3 :: b4 :: rest) attrs = Ok attrs'.
Proof.
  unfold annotate_hvac_packet, getitem.
  cbn [lookup list_lookup mbind result_bind].
  destruct (Z.land (int_of_byte b1) 128 =? 0); cbn [mbind result_bind].
  - rewrite lookup_insert_eq. cbn [mbind result_bind bytes].
    rewrite !byte_of_int_of_byte. eexists. reflexivity.
  - destruct (_ !! "room_temperature"); cbn [mbind result_bind bytes];
      rewrite !byte_of_int_of_byte; eexists; reflexivity.
Qed.

(** ** General facts on [recompose_packet] and [decode] *)

Lemma recompose_packet_times frames last_end r :
  recompose_packet frames last_end = Ok r ->
  exists first final,
    frames !! 0%nat = Some first /\ last frames = Some final /\
    start_time r = start_time first /\ end_time r = end_time final.
Proof.
  unfold recompose_packet, item, getitem_last. intros H.
  do 3 bind_inv H. clear Ha Ha0 Ha1.
  destruct (negb _).
  - do 2 bind_inv H. injection H as <-.
    destruct (frames !! 0%nat) as [first|]; [|discriminate].
    destruct (last frames) as [final|]; [|discriminate].
    injection Ha as <-. injection Ha0 as <-. exists first, final. auto.
  - do 4 bind_inv H. injection H as <-.
    destruct (frames !! 0%nat) as [first|]; [|discriminate].
    destruct (last frames) as [final|]; [|discriminate].
    injection Ha1 as <-. injection Ha2 as <-. exists first, final. auto.
Qed.

Lemma recompose_packet_type frames last_end r :
  recompose_packet frames last_end = Ok r ->
  type r = "invalid_checksum" \/ type r = "valid_packet".
Proof.
  unfold recompose_packet. intros H.
  do 3 bind_inv H.
  destruct (negb _).
  - do 2 bind_inv H. injection H as <-. left. reflexivity.
  - do 4 bind_inv H. injection H as <-. right. reflexivity.
Qed.

(** [decode] hands a frame on only when the new frame is the sixth of the
    buffer; it then empties the buffer and moves [_last_end]. *)
Lemma decode_emits self frame self' r :
  decode self frame = (self', Ok (Some r)) ->
  type frame = "data" /\
  exists f0 f1 f2 f3 f4,
    _packet self = [f0; f1; f2; f3; f4] /\
    recompose_packet [f0; f1; f2; f3; f4; frame] (_last_end self) = Ok r /\
    self' = mkHla (_last_start self) (Some (end_time r)) [].
Proof.
  unfold decode. intros H.
  destruct (String.eqb_spec (type frame) "data") as [Ht|Ht];
    cbn [negb] in H; [|discriminate].
  split; [exact Ht|].
  assert (Hkept : forall packet,
             (if Nat.eqb (length (packet ++ [frame])) 6 then
                match recompose_packet (packet ++ [frame]) (_last_end self) with
                | Ok analyzed_frame =>
                    (mkHla (_last_start self) (Some (end_time analyzed_frame)) [],
                     Ok (Some analyzed_frame))
                | Raise e => (mkHla (_last_start self) (_last_end self) (packet ++ [frame]), Raise e)
                end
              else (mkHla (_last_start self) (_last_end self) (packet ++ [frame]), Ok None))
             = (self', Ok (Some r)) ->
             length (packet ++ [frame]) = 6%nat /\
             recompose_packet (packet ++ [frame]) (_last_end self) = Ok r /\
             self' = mkHla (_last_start self) (Some (end_time r)) []).
  { intros packet Hd.
    destruct (Nat.eqb_spec (length (packet ++ [frame])) 6) as [Hlen|Hlen];
      [|discriminate].
    destruct (recompose_packet (packet ++ [frame]) (_last_end self)) as [r'|e];
      [|discriminate].
    injection Hd as <- <-. auto. }
  apply Hkept in H as (Hlen & Hr & ->). clear Hkept.
  assert (Hp : match last (_packet self) with
               | Some previous =>
                   if end_time frame - end_time previous >? _PACKETS_DISTANCE
                   then [] else _packet self
               | None => _packet self
               end = _packet self).
  { destruct (last (_packet self)) as [previous|]; [|reflexivity].
    destruct (_ >? _); [discriminate Hlen|reflexivity]. }
  rewrite Hp in Hlen, Hr.
  rewrite length_app in Hlen. cbn [length] in Hlen.
  destruct (_packet self) as [|f0 [|f1 [|f2 [|f3 [|f4 [|f5 l]]]]]];
    cbn [length] in Hlen; try lia.
  exists f0, f1, f2, f3, f4. auto.
Qed.

Lemma decode_not_data self frame :
  type frame <> "data" -> decode self frame = (self, Ok None).
Proof.
  intros H. unfold decode.
  destruct (String.eqb_spec (type frame) "data"); [contradiction|reflexivity].
Qed.

(** Six carried bytes: an invalid-checksum record comes out exactly when the
    sixth byte differs from the checksum of the first five; when it does not
    differ, whatever record comes out is a valid packet. *)
Lemma recompose_packet_invalid_iff f0 f1 f2 f3 f4 f5 b0 b1 b2 b3 b4 b5 last_end :
  Forall2 carries [f0; f1; f2; f3; f4; f5] [b0; b1; b2; b3; b4; b5] ->
  (exists r, recompose_packet [f0; f1; f2; f3; f4; f5] last_end = Ok r
             /\ type r = "invalid_checksum")
  <-> int_of_byte b5 <> spec_checksum [b0; b1; b2; b3; b4].
Proof.
  intros H. rewrite (recompose_packet_six _ _ _ _ _ _ _ _ _ _ _ _ _ H).
  cbv zeta.
  destruct (Z.eqb_spec (int_of_byte b5) (spec_checksum [b0; b1; b2; b3; b4])) as [E|E];
    cbn [negb].
  - split; [|contradiction].
    intros (r & Hr & Ht). bind_inv Hr. injection Hr as <-. discriminate Ht.
  - split; [auto|]. intros _. eexists. split; reflexivity.
Qed.

(** A valid checksum, the panel's timing, a status packet and a fan-speed
    code the table lacks: [recompose_packet] raises [KeyError]. *)
Lemma recompose_packet_fan_KeyError f0 f1 f2 f3 f4 f5 b0 b1 b2 b3 b4 b5 last_end :
  Forall2 carries [f0; f1; f2; f3; f4; f5] [b0; b1; b2; b3; b4; b5] ->
  int_of_byte b5 = spec_checksum [b0; b1; b2; b3; b4] ->
  GraphTimeDelta 0 300 <= classification_gap (start_time f0) last_end ->
  Z.land (int_of_byte b0) 0x90 <> 0x90 ->
  Z.land (int_of_byte b2) 0x70 ∉ [0x00; 0x10; 0x20; 0x40] ->
  recompose_packet [f0; f1; f2; f3; f4; f5] last_end = Raise KeyError.
Proof.
  intros H Hsum Hgap Hinq Hfan.
  rewrite (recompose_packet_six _ _ _ _ _ _ _ _ _ _ _ _ _ H). cbv zeta.
  rewrite Hsum, Z.eqb_refl. cbn [negb].
  destruct (Z.ltb_spec (classification_gap (start_time f0) last_end)
              (GraphTimeDelta 0 300)); [lia|].
  rewrite annotate_panel_packet_fan_KeyError by assumption. reflexivity.
Qed.

(** On six carried bytes that is the only way [recompose_packet] fails. *)
Lemma recompose_packet_raises_iff f0 f1 f2 f3 f4 f5 b0 b1 b2 b3 b4 b5 last_end e :
  Forall2 carries [f0; f1; f2; f3; f4; f5] [b0; b1; b2; b3; b4; b5] ->
  recompose_packet [f0; f1; f2; f3; f4; f5] last_end = Raise e <->
  (e = KeyError /\
   int_of_byte b5 = spec_checksum [b0; b1; b2; b3; b4] /\
   GraphTimeDelta 0 300 <= classification_gap (start_time f0) last_end /\
   Z.land (int_of_byte b0) 0x90 <> 0x90 /\
   (Z.land (int_of_byte b2) 0x70 ∉ [0x00; 0x10; 0x20; 0x40])).
Proof.
  intros H. split.
  - rewrite (recompose_packet_six _ _ _ _ _ _ _ _ _ _ _ _ _ H). cbv zeta.
    destruct (Z.eqb_spec (int_of_byte b5) (spec_checksum [b0; b1; b2; b3; b4]))
      as [Hsum|Hsum]; cbn [negb]; [|discriminate].
    destruct (Z.ltb_spec (classification_gap (start_time f0) last_end)
                (GraphTimeDelta 0 300)) as [Hgap|Hgap].
    + destruct (annotate_hvac_packet_Ok b0 b1 b2 b3 b4 [b5]
                  (base_attributes [b0; b1; b2; b3; b4; b5])) as (attrs & ->).
      discriminate.
    + destruct (Z.eq_dec (Z.land (int_of_byte b0) 0x90) 0x90) as [Hinq|Hinq].
      { rewrite annotate_panel_packet_inquiry by exact Hinq. discriminate. }
      destruct (decide (Z.land (int_of_byte b2) 0x70 ∈ [0x00; 0x10; 0x20; 0x40]))
        as [Hfan|Hfan].
      { destruct (annotate_panel_packet_status_Ok b0 b1 b2 b3 b4 [b5]
                    (base_attributes [b0; b1; b2; b3; b4; b5]) Hinq Hfan)
          as (attrs & ->).
        discriminate. }
      rewrite annotate_panel_packet_fan_KeyError by assumption.
      intros [= <-]. auto.
  - intros (-> & Hsum & Hgap & Hinq & Hfan).
    eapply recompose_packet_fan_KeyError; eassumption.
Qed.

(** ** C1 *)

(** C1. A completed 6-byte packet should come out as a valid packet exactly
    when its sixth byte is (sum of the first five mod 256) XOR 0x55. The
    packet 00 28 30 00 00 0d has that checksum and is handed to the panel
    decoder (no earlier packet), yet [recompose_packet] raises [KeyError] on
    its fan-speed code 0x30 and [decode] lets the exception out: no valid
    packet is emitted for it. *)
Theorem C1_valid_checksum_yet_no_packet :
  int_of_byte x0d = spec_checksum [x00; x28; x30; x00; x00] /\
  _checksum [x00; x28; x30; x00; x00] = Ok (int_of_byte x0d) /\
  recompose_packet (packet_events panel_fan_0x30 0) None = Raise KeyError /\
  (forall r, recompose_packet (packet_events panel_fan_0x30 0) None <> Ok r).
Proof.
  assert (H : recompose_packet (packet_events panel_fan_0x30 0) None = Raise KeyError)
    by reflexivity.
  repeat split; try reflexivity.
  intros r Hr. rewrite H in Hr. discriminate.
Qed.

(** ** C2 *)

(** C2. For a packet of six bytes with a valid checksum: when the start of
    the packet is less than 300 ms after [last_end], the record is the one
    built by the unit decoder [annotate_hvac_packet]; when it is 300 ms or
    more after, the one built by the panel decoder [annotate_panel_packet];
    with no [last_end], the distance is 30 seconds and the panel decoder is
    used. The distance compared with 300 ms is [classification_gap]. *)
Theorem C2_gap_selects_decoder f0 f1 f2 f3 f4 f5 b0 b1 b2 b3 b4 b5 last_end :
  Forall2 carries [f0; f1; f2; f3; f4; f5] [b0; b1; b2; b3; b4; b5] ->
  int_of_byte b5 = spec_checksum [b0; b1; b2; b3; b4] ->
  let p := [b0; b1; b2; b3; b4; b5] in
  let by_unit :=
    attrs ← annotate_hvac_packet p (base_attributes p);
    Ok (mkAnalyzerFrame "valid_packet" (start_time f0) (end_time f5) attrs) in
  let by_panel :=
    attrs ← annotate_panel_packet p (base_attributes p);
    Ok (mkAnalyzerFrame "valid_packet" (start_time f0) (end_time f5) attrs) in
  recompose_packet [f0; f1; f2; f3; f4; f5] last_end =
    (if classification_gap (start_time f0) last_end <? GraphTimeDelta 0 300
     then by_unit else by_panel) /\
  (forall t, last_end = Some t -> start_time f0 - t < GraphTimeDelta 0 300 ->
     recompose_packet [f0; f1; f2; f3; f4; f5] last_end = by_unit) /\
  (forall t, last_end = Some t -> GraphTimeDelta 0 300 <= start_time f0 - t ->
     recompose_packet [f0; f1; f2; f3; f4; f5] last_end = by_panel) /\
  (last_end = None ->
     classification_gap (start_time f0) last_end = GraphTimeDelta 30 0 /\
     recompose_packet [f0; f1; f2; f3; f4; f5] last_end = by_panel).
Proof.
  intros H Hsum p by_unit by_panel.
  rewrite (recompose_packet_six _ _ _ _ _ _ _ _ _ _ _ _ _ H). cbv zeta.
  rewrite Hsum, Z.eqb_refl. cbn [negb].
  split; [|split; [|split]].
  - subst by_unit by_panel. destruct (_ <? _); reflexivity.
  - intros t -> Hlt. cbn [classification_gap].
    destruct (Z.ltb_spec (start_time f0 - t) (GraphTimeDelta 0 300)); [reflexivity|lia].
  - intros t -> Hge. cbn [classification_gap].
    destruct (Z.ltb_spec (start_time f0 - t) (GraphTimeDelta 0 300)); [lia|reflexivity].
  - intros ->. split; reflexivity.
Qed.

Lemma C2_witness :
  let fs := packet_events unit_reply 700000000 in
  Forall2 carries fs unit_reply /\
  int_of_byte x87 = spec_checksum [xaa; x28; x00; x00; x00] /\
  recompose_packet fs (Some 596000000) =
    (attrs ← annotate_hvac_packet unit_reply (base_attributes unit_reply);
     Ok (mkAnalyzerFrame "valid_packet" 700000000 1296000000 attrs)).
Proof.
  intros fs.
  assert (Hc : Forall2 carries fs unit_reply) by (repeat constructor).
  assert (Hs : int_of_byte x87 = spec_checksum [xaa; x28; x00; x00; x00])
    by reflexivity.
  split; [exact Hc|]. split; [exact Hs|].
  exact (proj1 (proj2 (C2_gap_selects_decoder _ _ _ _ _ _ _ _ _ _ _ _ _ Hc Hs))
           596000000 eq_refl eq_refl).
Defined.

(** ** C3 *)

(** C3. Processing a stream should never raise. Fed the six bytes of the
    packet 00 28 30 00 00 0d (valid checksum, no earlier packet so the panel
    decoder, not a features inquiry, fan-speed code 0x30), [decode] raises
    [KeyError] on the sixth byte instead of returning a record. The buffer is
    not emptied on that path: it keeps its six frames, so if the host goes on
    calling [decode], the well-formed packet that follows within the second
    is swallowed too, whereas the same packet on a fresh analyzer is
    decoded. *)
Theorem C3_decode_raises_on_unknown_fan_speed :
  let bad := packet_events panel_fan_0x30 0 in
  let good := packet_events panel_status 700000000 in
  int_of_byte x0d = spec_checksum [x00; x28; x30; x00; x00] /\
  Z.land (int_of_byte x00) 0x90 <> 0x90 /\
  (Z.land (int_of_byte x30) 0x70 ∉ [0x00; 0x10; 0x20; 0x40]) /\
  feed __init__ bad =
    [Ok None; Ok None; Ok None; Ok None; Ok None; Raise KeyError] /\
  decode (mkHla None None (take 5 bad)) (byte_event x0d 500000000 596000000) =
    (mkHla None None bad, Raise KeyError) /\
  feed __init__ (bad ++ good) =
    [Ok None; Ok None; Ok None; Ok None; Ok None; Raise KeyError;
     Ok None; Ok None; Ok None; Ok None; Ok None; Ok None] /\
  exists r, feed __init__ good =
    [Ok None; Ok None; Ok None; Ok None; Ok None; Ok (Some r)].
Proof.
  intros bad good.
  split; [reflexivity|]. split; [discriminate|].
  split; [apply _FAN_SPEED_None; reflexivity|].
  split; [reflexivity|]. split; [reflexivity|]. split; [reflexivity|].
  eexists. reflexivity.
Qed.

(** ** C4 *)

Lemma feed_same_step self1 self2 frame rest :
  decode self1 frame = decode self2 frame ->
  feed self1 (frame :: rest) = feed self2 (frame :: rest).
Proof. intros H. cbn [feed]. rewrite H. reflexivity. Qed.

(** C4, as the code has it. While the buffer is non-empty, a byte event
    whose END time is more than [_PACKETS_DISTANCE] after the end time of the
    last buffered event discards the buffer: the call returns no record, the
    buffer is the new event alone, and every later output is the one of an
    analyzer whose buffer was empty, so the discarded bytes are in no later
    packet. Otherwise the buffer is kept and the event appended: the
    extended buffer is stored when it is not six frames long, and is the
    packet given to [recompose_packet] when it is. *)
Theorem C4_gap_between_end_times self frame previous :
  type frame = "data" ->
  last (_packet self) = Some previous ->
  (_PACKETS_DISTANCE < end_time frame - end_time previous ->
     decode self frame =
       (mkHla (_last_start self) (_last_end self) [frame], Ok None) /\
     forall rest,
       feed self (frame :: rest) =
       feed (mkHla (_last_start self) (_last_end self) []) (frame :: rest)) /\
  (end_time frame - end_time previous <= _PACKETS_DISTANCE ->
     (length (_packet self) <> 5%nat ->
        decode self frame =
          (mkHla (_last_start self) (_last_end self) (_packet self ++ [frame]),
           Ok None)) /\
     (length (_packet self) = 5%nat ->
        snd (decode self frame) =
          (r ← recompose_packet (_packet self ++ [frame]) (_last_end self);
           Ok (Some r)))).
Proof.
  intros Ht Hlast.
  assert (Hdata : negb (String.eqb (type frame) "data") = false).
  { rewrite Ht. reflexivity. }
  split.
  - intros Hgap.
    assert (Hd : decode self frame =
                 (mkHla (_last_start self) (_last_end self) [frame], Ok None)).
    { unfold decode. rewrite Hdata, Hlast.
      destruct (Z.gtb_spec (end_time frame - end_time previous) _PACKETS_DISTANCE);
        [reflexivity|lia]. }
    split; [exact Hd|].
    intros rest. apply feed_same_step. rewrite Hd.
    unfold decode. rewrite Hdata. reflexivity.
  - intros Hgap.
    assert (Hkeep : (if end_time frame - end_time previous >? _PACKETS_DISTANCE
                     then [] else _packet self) = _packet self).
    { destruct (Z.gtb_spec (end_time frame - end_time previous) _PACKETS_DISTANCE);
        [lia|reflexivity]. }
    split; intros Hlen; unfold decode; rewrite Hdata, Hlast, Hkeep.
    + destruct (Nat.eqb_spec (length (_packet self ++ [frame])) 6) as [E|_];
        [|reflexivity].
      rewrite length_app in E. cbn [length] in E. lia.
    + destruct (Nat.eqb_spec (length (_packet self ++ [frame])) 6) as [_|E].
      * destruct (recompose_packet _ _); reflexivity.
      * rewrite length_app in E. cbn [length] in E. lia.
Qed.

Lemma C4_witness :
  let previous := byte_event x10 0 96000000 in
  let frame := byte_event x28 100000000 196000000 in
  decode (mkHla None None [previous]) frame =
    (mkHla None None [previous; frame], Ok None).
Proof.
  intros previous frame.
  refine (proj1 (proj2 (C4_gap_between_end_times
            (mkHla None None [previous]) frame previous eq_refl eq_refl) _) _).
  - discriminate.
  - discriminate.
Defined.

(** The claim measures the gap from the START of the new event. An event
    that starts the instant the previous one ends, and ends 1.5 s later, has
    a zero gap in that sense, yet the buffered byte is discarded. *)
Lemma C4_counterexample :
  let previous := byte_event x10 0 96000000 in
  let frame := byte_event x28 96000000 1596000000 in
  let self := mkHla None None [previous] in
  start_time frame - end_time previous = 0 /\
  ~ (_PACKETS_DISTANCE < start_time frame - end_time previous) /\
  decode self frame = (mkHla None None [frame], Ok None) /\
  _packet (fst (decode self frame)) <> _packet self ++ [frame].
Proof.
  intros previous frame self.
  split; [reflexivity|]. split; [discriminate|]. split; [reflexivity|].
  discriminate.
Qed.

(** With the timing of the bus itself: the new byte starts 950 ms after the
    previous one ended, and its own 96 ms bring its end beyond the second. *)
Example C4_bus_timing :
  let previous := byte_event x10 0 96000000 in
  let frame := byte_event x28 1046000000 1142000000 in
  start_time frame - end_time previous <= _PACKETS_DISTANCE /\
  decode (mkHla None None [previous]) frame = (mkHla None None [frame], Ok None).
Proof. split; [discriminate|reflexivity]. Qed.

(** The scenario of three bytes, a two-second pause, then a whole packet:
    the three bytes give no record and the packet is decoded alone. *)
Example three_bytes_then_a_packet :
  exists r,
    feed __init__ (packet_events [x10; x28; x25] 0
                     ++ packet_events panel_status 2296000000) =
      [Ok None; Ok None; Ok None;
       Ok None; Ok None; Ok None; Ok None; Ok None; Ok (Some r)] /\
    data r !! "data" = Some (VStr "1028250000") /\
    start_time r = 2296000000.
Proof. eexists. split; [reflexivity|]. split; reflexivity. Qed.

(** ** C5 *)

(** C5. A features inquiry whose bytes 1 to 3 are all zero should record no
    unknown bits. On the packet 90 00 00 00 00 c5, handed to the panel
    decoder, [features_inquiry] is set and an [unknown_data] entry of four
    zero bytes is recorded all the same: the three-byte slice is compared
    with a constant of four zero bytes, which it can never equal. *)
Theorem C5_zero_inquiry_still_records_unknown_data :
  Z.land (int_of_byte x90) 0x90 = 0x90 /\
  slice panel_inquiry_zero 1 4 = [x00; x00; x00] /\
  (exists attrs,
     annotate_panel_packet panel_inquiry_zero (base_attributes panel_inquiry_zero)
       = Ok attrs /\
     attrs !! "features_inquiry" = Some (VBool true) /\
     attrs !! "unknown_data" = Some (VBytes [x00; x00; x00; x00])) /\
  (exists r,
     recompose_packet (packet_events panel_inquiry_zero 0) None = Ok r /\
     type r = "valid_packet" /\
     data r !! "unknown_data" = Some (VBytes [x00; x00; x00; x00])).
Proof.
  split; [reflexivity|]. split; [reflexivity|]. split.
  - eexists. split; [apply annotate_panel_packet_inquiry; reflexivity|].
    split; [|apply lookup_insert_eq].
    rewrite lookup_insert_ne by discriminate. apply lookup_insert_eq.
  - eexists. split; [reflexivity|]. split; reflexivity.
Qed.

(** ** C6 *)

(** C6. Whenever [decode] returns a record, be it an invalid-checksum record
    or a valid packet, the analyzer's [_last_end] is that record's end time
    afterwards (and its buffer is empty). *)
Theorem C6_last_end_always_advances self frame self' r :
  decode self frame = (self', Ok (Some r)) ->
  _last_end self' = Some (end_time r) /\
  _packet self' = [] /\
  (type r = "invalid_checksum" \/ type r = "valid_packet").
Proof.
  intros H. apply decode_emits in H as (_ & f0 & f1 & f2 & f3 & f4 & _ & Hr & ->).
  split; [reflexivity|]. split; [reflexivity|].
  eapply recompose_packet_type, Hr.
Qed.

Lemma C6_witness :
  let buffered := take 5 (packet_events panel_corrupted 0) in
  let sixth := byte_event x09 500000000 596000000 in
  let r := mkAnalyzerFrame "invalid_checksum" 0 596000000
             {["data" := VStr "102825000009"]} in
  decode (mkHla None None buffered) sixth = (mkHla None (Some 596000000) [], Ok (Some r)) /\
  _last_end (mkHla None (Some 596000000) []) = Some (end_time r).
Proof.
  intros buffered sixth r.
  assert (H : decode (mkHla None None buffered) sixth
              = (mkHla None (Some 596000000) [], Ok (Some r))) by reflexivity.
  split; [exact H|].
  exact (proj1 (C6_last_end_always_advances _ _ _ _ H)).
Defined.

(** ** C7 *)

(** C7. The unit decoder on a payload p0..p4 (followed by anything), started
    from attributes without a room temperature: when bit 7 of p1 is clear,
    [room_temperature] is p1 / 2 + 10 and the unknown bytes are
    (p0, 0, p2, p3, p4); when bit 7 of p1 is set, there is no
    [room_temperature] and the unknown bytes are (p0, p1, p2, p3, p4). *)
Theorem C7_unit_decoder b0 b1 b2 b3 b4 rest (attrs : gmap string value) :
  attrs !! "room_temperature" = None ->
  exists attrs',
    annotate_hvac_packet (b0 :: b1 :: b2 :: b3 :: b4 :: rest) attrs = Ok attrs' /\
    (Z.testbit (int_of_byte b1) 7 = false ->
       attrs' !! "room_temperature"
         = Some (VFloat (inject_Z (int_of_byte b1) / 2 + 10)) /\
       attrs' !! "unknown_data" = Some (VBytes [b0; x00; b2; b3; b4])) /\
    (Z.testbit (int_of_byte b1) 7 = true ->
       attrs' !! "room_temperature" = None /\
       attrs' !! "unknown_data" = Some (VBytes [b0; b1; b2; b3; b4])).
Proof.
  intros Hfresh.
  destruct (Z.testbit (int_of_byte b1) 7) eqn:Hbit.
  - eexists. split; [apply annotate_hvac_packet_no_reading; assumption|].
    split; [discriminate|]. intros _. split; [|apply lookup_insert_eq].
    rewrite !lookup_insert_ne by discriminate. exact Hfresh.
  - eexists. split; [apply annotate_hvac_packet_reading; assumption|].
    split; [|discriminate]. intros _. split; [|apply lookup_insert_eq].
    rewrite lookup_insert_ne by discriminate. apply lookup_insert_eq.
Qed.

Lemma C7_witness :
  exists attrs',
    annotate_hvac_packet unit_reply (base_attributes unit_reply) = Ok attrs' /\
    (Z.testbit (int_of_byte x28) 7 = false ->
       attrs' !! "room_temperature"
         = Some (VFloat (inject_Z (int_of_byte x28) / 2 + 10)) /\
       attrs' !! "unknown_data" = Some (VBytes [xaa; x00; x00; x00; x00])) /\
    (Z.testbit (int_of_byte x28) 7 = true ->
       attrs' !! "room_temperature" = None /\
       attrs' !! "unknown_data" = Some (VBytes [xaa; x28; x00; x00; x00])).
Proof.
  exact (C7_unit_decoder xaa x28 x00 x00 x00 [x87] (base_attributes unit_reply)
           eq_refl).
Defined.

(** The temperature of the example reply is 30 degrees; a reply whose byte 1
    has bit 7 set reports none and keeps the byte among the unknown ones. *)
Example unit_reply_temperature :
  (inject_Z (int_of_byte x28) / 2 + 10 == 30)%Q.
Proof. reflexivity. Qed.

Example unit_reply_without_reading :
  exists attrs',
    annotate_hvac_packet [xaa; x80; x01; x02; x03; x00] ∅ = Ok attrs' /\
    attrs' !! "room_temperature" = None /\
    attrs' !! "unknown_data" = Some (VBytes [xaa; x80; x01; x02; x03]).
Proof. eexists. split; [reflexivity|]. split; reflexivity. Qed.

(** ** C8 *)

(** [hex_byte] writes the two hexadecimal digits of the byte. *)
Lemma hex_byte_digits (b : byte) :
  exists hi lo,
    hex_byte b = String hi (String lo "") /\
    0 <= digit_value hi < 16 /\ 0 <= digit_value lo < 16 /\
    16 * digit_value hi + digit_value lo = int_of_byte b.
Proof.
  destruct b; do 2 eexists; (split; [reflexivity|]); vm_compute;
    repeat split; congruence.
Qed.

(** C8. Six bytes whose sixth is not the checksum of the first five: the
    record is an [invalid_checksum] record from the start of the first byte
    to the end of the sixth, whose only attribute is [data], the hexadecimal
    text of all six bytes (twelve digits); it has no [source] and no other
    attribute. *)
Theorem C8_invalid_checksum_record f0 f1 f2 f3 f4 f5 b0 b1 b2 b3 b4 b5 last_end :
  Forall2 carries [f0; f1; f2; f3; f4; f5] [b0; b1; b2; b3; b4; b5] ->
  int_of_byte b5 <> spec_checksum [b0; b1; b2; b3; b4] ->
  exists r,
    recompose_packet [f0; f1; f2; f3; f4; f5] last_end = Ok r /\
    type r = "invalid_checksum" /\
    data r !! "data" =
      Some (VStr (String.append (hex_byte b0) (String.append (hex_byte b1)
             (String.append (hex_byte b2) (String.append (hex_byte b3)
             (String.append (hex_byte b4) (hex_byte b5))))))) /\
    String.length (bytes_hex [b0; b1; b2; b3; b4; b5]) = 12%nat /\
    data r !! "source" = None /\
    (forall key, key <> "data" -> data r !! key = None).
Proof.
  intros H Hsum.
  rewrite (recompose_packet_six _ _ _ _ _ _ _ _ _ _ _ _ _ H). cbv zeta.
  destruct (Z.eqb_spec (int_of_byte b5) (spec_checksum [b0; b1; b2; b3; b4]));
    [contradiction|]. cbn [negb].
  eexists. split; [reflexivity|]. split; [reflexivity|].
  cbn [data]. split; [|split; [|split]].
  - rewrite lookup_singleton_eq. reflexivity.
  - reflexivity.
  - apply lookup_singleton_ne. discriminate.
  - intros key Hkey. apply lookup_singleton_ne. congruence.
Qed.

Lemma C8_witness :
  let fs := packet_events panel_corrupted 0 in
  exists r,
    recompose_packet fs None = Ok r /\
    type r = "invalid_checksum" /\
    data r !! "data" = Some (VStr "102825000009") /\
    String.length (bytes_hex panel_corrupted) = 12%nat /\
    data r !! "source" = None /\
    (forall key, key <> "data" -> data r !! key = None).
Proof.
  intros fs.
  assert (Hc : Forall2 carries fs panel_corrupted) by (repeat constructor).
  exact (C8_invalid_checksum_record _ _ _ _ _ _ _ _ _ _ _ _ None Hc
           ltac:(discriminate)).
Defined.

(** ** C9 *)

(** C9. The [source] of every valid-packet record is one of two labels,
    Unit and Panel; the code writes the label of the indoor unit as the
    text ["HVAC"] and the other as ["Panel"]. The label is Unit when the
    classification gap (the start of the packet minus [last_end], 30 seconds
    when there is no [last_end]) is below 300 ms, and Panel otherwise. *)
Theorem C9_source_label frames last_end first r :
  recompose_packet frames last_end = Ok r ->
  type r = "valid_packet" ->
  frames !! 0%nat = Some first ->
  let Unit := VStr "HVAC" in
  let Panel := VStr "Panel" in
  let gap := classification_gap (start_time first) last_end in
  Unit <> Panel /\
  (data r !! "source" = Some Unit \/ data r !! "source" = Some Panel) /\
  (gap < GraphTimeDelta 0 300 -> data r !! "source" = Some Unit) /\
  (GraphTimeDelta 0 300 <= gap -> data r !! "source" = Some Panel).
Proof.
  intros H Ht Hfirst Unit Panel gap.
  unfold recompose_packet, item in H. rewrite Hfirst in H.
  assert (Hsrc : data r !! "source" =
                 Some (if gap <? GraphTimeDelta 0 300 then Unit else Panel)).
  { do 3 bind_inv H.
    destruct (negb _).
    - do 2 bind_inv H. injection H as <-. discriminate Ht.
    - do 4 bind_inv H. injection H as <-. cbn [data].
      assert (a2 = gap) as ->.
      { subst gap. destruct last_end as [t|]; cbn in Ha2; injection Ha2 as <-;
          reflexivity. }
      destruct (_ <? _).
      + eapply annotate_hvac_packet_source, Ha3.
      + eapply annotate_panel_packet_source, Ha3. }
  split; [discriminate|].
  destruct (Z.ltb_spec gap (GraphTimeDelta 0 300)) as [Hlt|Hge].
  - split; [left; exact Hsrc|]. split; [intros _; exact Hsrc|intros Hc; lia].
  - split; [right; exact Hsrc|]. split; [intros Hc; lia|intros _; exact Hsrc].
Qed.

Lemma C9_witness :
  let fs := packet_events unit_reply 700000000 in
  exists r,
    recompose_packet fs (Some 596000000) = Ok r /\
    type r = "valid_packet" /\
    700000000 - 596000000 < GraphTimeDelta 0 300 /\
    data r !! "source" = Some (VStr "HVAC").
Proof.
  intros fs. eexists.
  split; [reflexivity|]. split; [reflexivity|]. split; [reflexivity|].
  exact (proj1 (proj2 (proj2
           (C9_source_label fs (Some 596000000)
              (byte_event xaa 700000000 796000000) _ eq_refl eq_refl eq_refl)))
           eq_refl).
Defined.

(** ** C10 *)

(** C10. Every record [decode] returns, valid or not, spans the six byte
    events of its packet: the five that were buffered and the one just
    received. It starts when the first one starts and ends when the sixth
    one ends. *)
Theorem C10_record_times self frame self' r :
  decode self frame = (self', Ok (Some r)) ->
  exists f0 f1 f2 f3 f4,
    _packet self = [f0; f1; f2; f3; f4] /\
    start_time r = start_time f0 /\
    end_time r = end_time frame.
Proof.
  intros H. apply decode_emits in H as (_ & f0 & f1 & f2 & f3 & f4 & Hp & Hr & _).
  exists f0, f1, f2, f3, f4. split; [exact Hp|].
  apply recompose_packet_times in Hr as (first & final & Hf & Hl & Hs & He).
  cbn in Hf, Hl. injection Hf as <-. injection Hl as <-. auto.
Qed.

Lemma C10_witness :
  let buffered := take 5 (packet_events panel_status 0) in
  let sixth := byte_event x08 500000000 596000000 in
  exists self' r,
    decode (mkHla None None buffered) sixth = (self', Ok (Some r)) /\
    exists f0 f1 f2 f3 f4,
      _packet (mkHla None None buffered) = [f0; f1; f2; f3; f4] /\
      start_time r = start_time f0 /\
      end_time r = end_time sixth.
Proof.
  intros buffered sixth.
  assert (H : exists self' r,
             decode (mkHla None None buffered) sixth = (self', Ok (Some r)))
    by (do 2 eexists; reflexivity).
  destruct H as (self' & r & H).
  exists self', r. split; [exact H|].
  exact (C10_record_times _ _ _ _ H).
Defined.

(** * Further properties of the decoder *)

(** ** The checksum *)

Lemma sum_bytes_app (l1 l2 : list byte) :
  sum_bytes (l1 ++ l2) = sum_bytes l1 + sum_bytes l2.
Proof.
  induction l1 as [|b l1 IH]; simpl; [reflexivity|]. rewrite IH. lia.
Qed.

Lemma sum_bytes_Permutation (l1 l2 : list byte) :
  l1 ≡ₚ l2 -> sum_bytes l1 = sum_bytes l2.
Proof.
  induction 1 as [|x l l' _ IH|x y l|l l' l'' _ IH1 _ IH2]; simpl; lia.
Qed.

Lemma int_of_byte_inj (b b' : byte) : int_of_byte b = int_of_byte b' -> b = b'.
Proof.
  intros H. pose proof (byte_of_int_of_byte b) as Hb.
  rewrite H, byte_of_int_of_byte in Hb. congruence.
Qed.

Lemma lxor_cancel_r (a b c : Z) : Z.lxor a c = Z.lxor b c -> a = b.
Proof.
  intros H. apply (f_equal (fun x => Z.lxor x c)) in H.
  rewrite !Z.lxor_assoc, Z.lxor_nilpotent, !Z.lxor_0_r in H. exact H.
Qed.

Lemma spec_checksum_single_change (l1 l2 : list byte) (b b' : byte) :
  b <> b' ->
  spec_checksum (l1 ++ b :: l2) <> spec_checksum (l1 ++ b' :: l2).
Proof.
  intros Hne Heq. unfold spec_checksum in Heq. apply lxor_cancel_r in Heq.
  rewrite !sum_bytes_app in Heq. cbn [sum_bytes fold_right] in Heq.
  fold (sum_bytes l2) in Heq.
  pose proof (int_of_byte_range b). pose proof (int_of_byte_range b').
  assert (int_of_byte b <> int_of_byte b') by (intros E; apply Hne, int_of_byte_inj, E).
  revert Heq. generalize (sum_bytes l1) (sum_bytes l2). intros s1 s2 Heq.
  apply Hne, int_of_byte_inj.
  Z.div_mod_to_equations. lia.
Qed.

(** X1. The checksum does not depend on the order of the bytes it is
    computed over: two payloads that are permutations of each other have
    the same checksum (and both calls raise alike on the empty payload). *)
Theorem X1_checksum_order_independent (payload payload' : list byte) :
  payload ≡ₚ payload' -> _checksum payload = _checksum payload'.
Proof.
  intros H.
  destruct payload as [|b l].
  - apply Permutation_nil_l in H. subst. reflexivity.
  - destruct payload' as [|b' l'].
    + apply Permutation_nil_r in H. discriminate.
    + rewrite !_checksum_spec. unfold spec_checksum.
      rewrite (sum_bytes_Permutation _ _ H). reflexivity.
Qed.

Lemma X1_witness :
  _checksum [x10; x28; x25; x00; x00] = _checksum [x28; x10; x25; x00; x00].
Proof.
  apply X1_checksum_order_independent. apply perm_swap.
Defined.

Lemma last_snoc_Ok {A} (l : list A) (x : A) : getitem_last (l ++ [x]) = Ok x.
Proof. unfold getitem_last. rewrite last_snoc. reflexivity. Qed.

Lemma slice_but_last_snoc {A} (l : list A) (x : A) : slice_but_last (l ++ [x]) = l.
Proof.
  unfold slice_but_last. rewrite length_app. cbn [length].
  replace (length l + 1 - 1)%nat with (length l) by lia.
  apply take_app_length.
Qed.

(** Frames carrying a payload of at least one byte and then a byte [c]:
    [recompose_packet] reports an invalid checksum exactly when [c] is not
    the checksum of the payload. *)
Lemma recompose_packet_mismatch frames (payload : list byte) (c : byte) last_end :
  Forall2 carries frames (payload ++ [c]) ->
  payload <> [] ->
  int_of_byte c <> spec_checksum payload ->
  exists r, recompose_packet frames last_end = Ok r /\ type r = "invalid_checksum".
Proof.
  intros H Hp Hc. unfold recompose_packet.
  rewrite (concat_frames_carries _ _ [] H). cbn [app mbind result_bind].
  rewrite last_snoc_Ok, slice_but_last_snoc. cbn [mbind result_bind].
  destruct payload as [|b payload]; [contradiction|].
  rewrite _checksum_spec. cbn [mbind result_bind].
  destruct (Z.eqb_spec (int_of_byte c) (spec_checksum (b :: payload)));
    [contradiction|]. cbn [negb].
  apply Forall2_length in H. rewrite length_app in H. cbn [length] in H.
  destruct frames as [|f0 frames]; [cbn in H; lia|].
  unfold item, getitem_last. cbn [lookup list_lookup mbind result_bind].
  destruct (last (f0 :: frames)) as [final|] eqn:Hl.
  - eexists. split; reflexivity.
  - apply last_None in Hl. discriminate.
Qed.

Lemma recompose_packet_match frames (payload : list byte) (c : byte) last_end r :
  Forall2 carries frames (payload ++ [c]) ->
  payload <> [] ->
  int_of_byte c = spec_checksum payload ->
  recompose_packet frames last_end = Ok r ->
  type r = "valid_packet".
Proof.
  intros H Hp Hc. unfold recompose_packet.
  rewrite (concat_frames_carries _ _ [] H). cbn [app mbind result_bind].
  rewrite last_snoc_Ok, slice_but_last_snoc. cbn [mbind result_bind].
  destruct payload as [|b payload]; [contradiction|].
  rewrite _checksum_spec. cbn [mbind result_bind].
  rewrite Hc, Z.eqb_refl. cbn [negb].
  intros Hr. do 4 bind_inv Hr. injection Hr as <-. reflexivity.
Qed.

(** X2. Any single wrong byte is detected. If the frames of a packet (a
    payload of at least one byte and a checksum byte) are not reported as an
    invalid checksum, then the frames of the same packet with exactly one
    byte replaced by a different one, payload or checksum byte alike, give
    an [invalid_checksum] record, whatever [last_end] is. *)
Theorem X2_single_byte_error_detected frames frames' (l1 l2 : list byte)
    (b b' : byte) last_end last_end' :
  (2 <= length (l1 ++ b :: l2))%nat ->
  Forall2 carries frames (l1 ++ b :: l2) ->
  Forall2 carries frames' (l1 ++ b' :: l2) ->
  b <> b' ->
  (forall r, recompose_packet frames last_end = Ok r -> type r = "valid_packet") ->
  exists r',
    recompose_packet frames' last_end' = Ok r' /\ type r' = "invalid_checksum".
Proof.
  intros Hlen H H' Hne Hvalid.
  destruct l2 as [|x l2 _] using rev_ind.
  - (* the checksum byte itself is wrong *)
    assert (Hl1 : l1 <> []).
    { intros ->. cbn in Hlen. lia. }
    destruct (Z.eq_dec (int_of_byte b) (spec_checksum l1)) as [E|E].
    + apply (recompose_packet_mismatch _ l1 b'); [exact H'|exact Hl1|].
      rewrite <- E. intros E'. apply Hne, int_of_byte_inj. symmetry. exact E'.
    + destruct (recompose_packet_mismatch _ l1 b last_end H Hl1 E) as (r & Hr & Ht).
      apply Hvalid in Hr. rewrite Ht in Hr. discriminate.
  - (* a payload byte is wrong *)
    change (l1 ++ b :: l2 ++ [x]) with (l1 ++ (b :: l2) ++ [x]) in H.
    change (l1 ++ b' :: l2 ++ [x]) with (l1 ++ (b' :: l2) ++ [x]) in H'.
    rewrite app_assoc in H, H'.
    assert (Hp : forall y, l1 ++ y :: l2 <> []).
    { intros y. destruct l1; discriminate. }
    destruct (Z.eq_dec (int_of_byte x) (spec_checksum (l1 ++ b :: l2))) as [E|E].
    + apply (recompose_packet_mismatch _ (l1 ++ b' :: l2) x); [exact H'|apply Hp|].
      rewrite E. apply spec_checksum_single_change. exact Hne.
    + destruct (recompose_packet_mismatch _ _ x last_end H (Hp b) E) as (r & Hr & Ht).
      apply Hvalid in Hr. rewrite Ht in Hr. discriminate.
Qed.

Lemma X2_witness :
  exists r',
    recompose_packet (packet_events panel_corrupted 0) None = Ok r' /\
    type r' = "invalid_checksum".
Proof.
  refine (X2_single_byte_error_detected
            (packet_events panel_status 0) (packet_events panel_corrupted 0)
            [x10; x28; x25; x00; x00] [] x08 x09 None None _ _ _ _ _).
  - cbn. lia.
  - repeat constructor.
  - repeat constructor.
  - discriminate.
  - intros r Hr. vm_compute in Hr. injection Hr as <-. reflexivity.
Defined.

(** ** The frame aggregator *)

(** The buffer [decode] works on once the gap has been looked at. *)
Lemma decode_data self frame :
  type frame = "data" ->
  exists packet,
    (packet = _packet self \/
     packet = [] /\ exists previous,
       last (_packet self) = Some previous /\
       _PACKETS_DISTANCE < end_time frame - end_time previous) /\
    decode self frame =
      if Nat.eqb (length (packet ++ [frame])) 6 then
        match recompose_packet (packet ++ [frame]) (_last_end self) with
        | Ok analyzed_frame =>
            (mkHla (_last_start self) (Some (end_time analyzed_frame)) [],
             Ok (Some analyzed_frame))
        | Raise e =>
            (mkHla (_last_start self) (_last_end self) (packet ++ [frame]), Raise e)
        end
      else (mkHla (_last_start self) (_last_end self) (packet ++ [frame]), Ok None).
Proof.
  intros Ht. unfold decode. rewrite Ht. cbn [String.eqb negb].
  change (("data" =? "data")%string) with true. cbn [negb].
  destruct (last (_packet self)) as [previous|] eqn:Hl.
  - destruct (Z.gtb_spec (end_time frame - end_time previous) _PACKETS_DISTANCE).
    + exists []. split; [right; split; [reflexivity|]; exists previous; auto|].
      reflexivity.
    + exists (_packet self). split; [left; reflexivity|reflexivity].
  - exists (_packet self). split; [left; reflexivity|reflexivity].
Qed.

Lemma decode_raises self frame self' e :
  decode self frame = (self', Raise e) ->
  exists f0 f1 f2 f3 f4,
    _packet self = [f0; f1; f2; f3; f4] /\
    recompose_packet [f0; f1; f2; f3; f4; frame] (_last_end self) = Raise e /\
    self' = mkHla (_last_start self) (_last_end self) [f0; f1; f2; f3; f4; frame].
Proof.
  intros H.
  destruct (String.eqb_spec (type frame) "data") as [Ht|Ht].
  2:{ rewrite decode_not_data in H by exact Ht. discriminate. }
  destruct (decode_data self frame Ht) as (packet & Hp & Hd).
  rewrite Hd in H. clear Hd.
  destruct (Nat.eqb_spec (length (packet ++ [frame])) 6) as [Hlen|Hlen];
    [|discriminate].
  destruct (recompose_packet (packet ++ [frame]) (_last_end self)) as [r|e'] eqn:Hr;
    [discriminate|].
  injection H as <- <-.
  destruct Hp as [->|[-> _]]; [|discriminate Hlen].
  rewrite length_app in Hlen. cbn [length] in Hlen.
  destruct (_packet self) as [|f0 [|f1 [|f2 [|f3 [|f4 [|f5 l]]]]]];
    cbn [length] in Hlen; try lia.
  exists f0, f1, f2, f3, f4. auto.
Qed.

(** X3. On byte events, the only exception [decode] lets out is the
    [KeyError] of the fan-speed table. If every buffered frame and the new
    one carry one byte and [decode] raises, then the exception is
    [KeyError], the new byte is the sixth of a packet whose checksum is
    right, that is classified as coming from the panel, is not a features
    inquiry and whose fan-speed code is none of 0x00, 0x10, 0x20, 0x40;
    the analyzer keeps the six frames in its buffer and its [_last_end]. *)
Theorem X3_decode_only_raises_KeyError self frame self' e (bs : list byte) (b : byte) :
  Forall2 carries (_packet self) bs ->
  carries frame b ->
  decode self frame = (self', Raise e) ->
  e = KeyError /\
  exists f0 f1 f2 f3 f4 b0 b1 b2 b3 b4,
    _packet self = [f0; f1; f2; f3; f4] /\
    bs = [b0; b1; b2; b3; b4] /\
    int_of_byte b = spec_checksum bs /\
    GraphTimeDelta 0 300 <= classification_gap (start_time f0) (_last_end self) /\
    Z.land (int_of_byte b0) 0x90 <> 0x90 /\
    (Z.land (int_of_byte b2) 0x70 ∉ [0x00; 0x10; 0x20; 0x40]) /\
    _packet self' = [f0; f1; f2; f3; f4; frame] /\
    _last_end self' = _last_end self.
Proof.
  intros Hbs Hb H.
  apply decode_raises in H as (f0 & f1 & f2 & f3 & f4 & Hp & Hr & ->).
  rewrite Hp in Hbs.
  repeat (apply Forall2_cons_inv_l in Hbs as (? & ? & ? & Hbs & ->)).
  apply Forall2_nil_inv_l in Hbs as ->.
  match goal with
  | |- context [[?c0; ?c1; ?c2; ?c3; ?c4] = _] =>
      assert (Hc : Forall2 carries [f0; f1; f2; f3; f4; frame] [c0; c1; c2; c3; c4; b])
        by (repeat constructor; assumption)
  end.
  apply (recompose_packet_raises_iff _ _ _ _ _ _ _ _ _ _ _ _ _ _ Hc) in Hr
    as (-> & Hsum & Hgap & Hinq & Hfan).
  split; [reflexivity|].
  do 10 eexists. repeat (split; [first [reflexivity|eassumption]|]). reflexivity.
Qed.

Lemma X3_witness :
  let buffered := take 5 (packet_events panel_fan_0x30 0) in
  let sixth := byte_event x0d 500000000 596000000 in
  decode (mkHla None None buffered) sixth
    = (mkHla None None (buffered ++ [sixth]), Raise KeyError) /\
  KeyError = KeyError.
Proof.
  intros buffered sixth.
  assert (H : decode (mkHla None None buffered) sixth
              = (mkHla None None (buffered ++ [sixth]), Raise KeyError))
    by reflexivity.
  split; [exact H|].
  refine (proj1 (X3_decode_only_raises_KeyError _ _ _ _
                   [x00; x28; x30; x00; x00] x0d _ _ H)).
  - repeat constructor.
  - reflexivity.
Defined.

Lemma decode_buffer_bound self frame self' out :
  (length (_packet self) <= 5)%nat ->
  decode self frame = (self', Ok out) ->
  (length (_packet self') <= 5)%nat.
Proof.
  intros Hb H.
  destruct (String.eqb_spec (type frame) "data") as [Ht|Ht].
  2:{ rewrite decode_not_data in H by exact Ht. injection H as <- _. exact Hb. }
  destruct (decode_data self frame Ht) as (packet & Hp & Hd).
  rewrite Hd in H. clear Hd.
  assert (Hlen : (length (packet ++ [frame]) <= 6)%nat).
  { rewrite length_app. cbn [length]. destruct Hp as [->|[-> _]]; cbn [length]; lia. }
  destruct (Nat.eqb_spec (length (packet ++ [frame])) 6) as [E|E].
  - destruct (recompose_packet _ _); [|discriminate].
    injection H as <- _. cbn. lia.
  - injection H as <- _. cbn [_packet]. lia.
Qed.

(** X4. As long as no call raises, the buffer never holds more than five
    frames between two calls: from a fresh analyzer, after any sequence of
    frames on which every call to [decode] returned, the buffer has at most
    five frames. *)
Theorem X4_buffer_at_most_five (frames : list AnalyzerFrame) :
  Forall (fun out => exists v, out = Ok v) (feed __init__ frames) ->
  (length (_packet (final_state __init__ frames)) <= 5)%nat.
Proof.
  assert (Hgen : forall self,
             (length (_packet self) <= 5)%nat ->
             Forall (fun out => exists v, out = Ok v) (feed self frames) ->
             (length (_packet (final_state self frames)) <= 5)%nat).
  { induction frames as [|frame frames IH]; intros self Hb Hall; [exact Hb|].
    cbn [feed final_state] in *.
    destruct (decode self frame) as [self' out] eqn:Hd. cbn [fst].
    apply Forall_cons in Hall as [[v ->] Hall].
    apply IH; [|exact Hall].
    eapply decode_buffer_bound; eassumption. }
  apply Hgen. cbn. lia.
Qed.

Lemma X4_witness :
  let frames := packet_events panel_status 0
                  ++ packet_events [x10; x28; x25] 700000000 in
  (length (_packet (final_state __init__ frames)) <= 5)%nat.
Proof.
  intros frames.
  apply X4_buffer_at_most_five.
  repeat (apply Forall_cons; split; [eexists; reflexivity|]).
  apply Forall_nil. exact I.
Defined.

(** X5. Once the buffer holds six frames or more (which is how a call that
    raised leaves it), nothing is decoded any more until a pause: every byte
    event of a run in which each event ends within [_PACKETS_DISTANCE] of
    the end of the one before returns [None] and is only added to the
    buffer. *)
Theorem X5_full_buffer_swallows self previous (frames : list AnalyzerFrame) :
  (6 <= length (_packet self))%nat ->
  last (_packet self) = Some previous ->
  close_run (end_time previous) frames ->
  feed self frames = map (fun _ => Ok None) frames /\
  final_state self frames =
    mkHla (_last_start self) (_last_end self) (_packet self ++ frames).
Proof.
  revert self previous.
  induction frames as [|frame frames IH]; intros self previous Hlen Hlast Hrun.
  - cbn. rewrite app_nil_r. destruct self; auto.
  - destruct Hrun as (Ht & Hgap & Hrun).
    assert (Hd : decode self frame =
                 (mkHla (_last_start self) (_last_end self) (_packet self ++ [frame]),
                  Ok None)).
    { unfold decode. rewrite Ht, Hlast. cbn [negb].
      change (("data" =? "data")%string) with true. cbn [negb].
      destruct (Z.gtb_spec (end_time frame - end_time previous) _PACKETS_DISTANCE);
        [lia|].
      destruct (Nat.eqb_spec (length (_packet self ++ [frame])) 6) as [E|_];
        [|reflexivity].
      rewrite length_app in E. cbn [length] in E. lia. }
    cbn [feed final_state map]. rewrite Hd. cbn [fst].
    destruct (IH (mkHla (_last_start self) (_last_end self) (_packet self ++ [frame]))
                frame) as [Hf Hs].
    + cbn [_packet]. rewrite length_app. cbn [length]. lia.
    + cbn [_packet]. apply last_snoc.
    + exact Hrun.
    + rewrite Hf, Hs. cbn [_packet _last_start _last_end].
      rewrite <- app_assoc. auto.
Qed.

Lemma X5_witness :
  let stuck := mkHla None None (packet_events panel_fan_0x30 0) in
  let next := packet_events panel_status 600000000 in
  feed stuck next = [Ok None; Ok None; Ok None; Ok None; Ok None; Ok None].
Proof.
  intros stuck next.
  refine (proj1 (X5_full_buffer_swallows stuck
                   (byte_event x0d 500000000 596000000) next _ _ _)).
  - cbn. lia.
  - reflexivity.
  - cbn. repeat split; discriminate.
Defined.

(** X6. Frames that are not byte events are transparent: [decode] returns
    [None] on each of them, and removing them from a capture changes neither
    the outcomes of the calls on the byte events nor the analyzer at the
    end. *)
Theorem X6_other_frames_are_transparent self (frames : list AnalyzerFrame) :
  let is_data := fun frame => String.eqb (type frame) "data" in
  feed self (List.filter is_data frames) =
    map snd (List.filter (fun fo => is_data (fst fo))
               (combine frames (feed self frames))) /\
  final_state self (List.filter is_data frames) = final_state self frames /\
  Forall (fun fo => is_data (fst fo) = false -> snd fo = Ok None)
    (combine frames (feed self frames)).
Proof.
  intros is_data. revert self.
  induction frames as [|frame frames IH]; intros self.
  - cbn. repeat split. constructor.
  - cbn [List.filter feed final_state combine].
    destruct (decode self frame) as [self' out] eqn:Hd.
    cbn [combine List.filter fst snd].
    destruct (is_data frame) eqn:Ht.
    + cbn [feed final_state map snd]. rewrite Hd. cbn [fst].
      destruct (IH self') as (Hf & Hs & Hn).
      rewrite Hf, Hs. repeat split.
      constructor; [cbn; rewrite Ht; discriminate|exact Hn].
    + assert (Hne : type frame <> "data").
      { intros E. unfold is_data in Ht. rewrite E in Ht. discriminate. }
      rewrite decode_not_data in Hd by exact Hne. injection Hd as <- <-.
      destruct (IH self) as (Hf & Hs & Hn).
      rewrite Hf, Hs. repeat split.
      constructor; [reflexivity|exact Hn].
Qed.

(** X7. [decode] never touches [_last_start], and it changes [_last_end]
    only in a call that returns a record: a call that returns [None] (frame
    ignored, byte buffered, buffer discarded after a pause) or that raises
    leaves [_last_end] as it was. *)
Theorem X7_last_end_moves_only_with_a_record self frame self' out :
  decode self frame = (self', out) ->
  _last_start self' = _last_start self /\
  ((forall r, out <> Ok (Some r)) -> _last_end self' = _last_end self).
Proof.
  intros H.
  destruct (String.eqb_spec (type frame) "data") as [Ht|Ht].
  2:{ rewrite decode_not_data in H by exact Ht. injection H as <- _. auto. }
  destruct (decode_data self frame Ht) as (packet & _ & Hd).
  rewrite Hd in H. clear Hd.
  destruct (Nat.eqb (length (packet ++ [frame])) 6).
  - destruct (recompose_packet _ _) as [r|e]; injection H as <- <-.
    + split; [reflexivity|]. intros Hno. exfalso. apply (Hno r). reflexivity.
    + auto.
  - injection H as <- <-. auto.
Qed.

Lemma X7_witness :
  let self := mkHla None (Some 5) [byte_event x10 0 96000000] in
  let late := byte_event x28 3000000000 3096000000 in
  decode self late = (mkHla None (Some 5) [late], Ok None) /\
  _last_start (mkHla None (Some 5) [late]) = _last_start self /\
  _last_end (mkHla None (Some 5) [late]) = _last_end self.
Proof.
  intros self late.
  assert (H : decode self late = (mkHla None (Some 5) [late], Ok None))
    by reflexivity.
  split; [exact H|].
  destruct (X7_last_end_moves_only_with_a_record _ _ _ _ H) as [Hs He].
  split; [exact Hs|]. apply He. discriminate.
Defined.

(** A byte event that does not come after a pause is appended. *)
Lemma decode_kept self frame :
  type frame = "data" ->
  (forall previous, last (_packet self) = Some previous ->
     end_time frame - end_time previous <= _PACKETS_DISTANCE) ->
  decode self frame =
    if Nat.eqb (length (_packet self ++ [frame])) 6 then
      match recompose_packet (_packet self ++ [frame]) (_last_end self) with
      | Ok analyzed_frame =>
          (mkHla (_last_start self) (Some (end_time analyzed_frame)) [],
           Ok (Some analyzed_frame))
      | Raise e =>
          (mkHla (_last_start self) (_last_end self) (_packet self ++ [frame]),
           Raise e)
      end
    else (mkHla (_last_start self) (_last_end self) (_packet self ++ [frame]),
          Ok None).
Proof.
  intros Ht Hgap.
  destruct (decode_data self frame Ht) as (packet & [->|[-> (previous & Hl & Hlt)]] & ->).
  - reflexivity.
  - specialize (Hgap previous Hl). lia.
Qed.

(** X8. Framing is by count and by pauses only. From an empty buffer, six
    byte events each of which ends within [_PACKETS_DISTANCE] of the end of
    the one before make one packet: the first five calls return [None] and
    the sixth returns or raises what [recompose_packet] does on the six
    frames with the current [_last_end]. *)
Theorem X8_six_close_bytes_make_a_packet self f0 f1 f2 f3 f4 f5 :
  _packet self = [] ->
  type f0 = "data" ->
  close_run (end_time f0) [f1; f2; f3; f4; f5] ->
  feed self [f0; f1; f2; f3; f4; f5] =
    [Ok None; Ok None; Ok None; Ok None; Ok None;
     r ← recompose_packet [f0; f1; f2; f3; f4; f5] (_last_end self); Ok (Some r)].
Proof.
  destruct self as [ls le buffer]. cbn [_packet _last_end].
  intros -> Ht0 (Ht1 & Hg1 & Ht2 & Hg2 & Ht3 & Hg3 & Ht4 & Hg4 & Ht5 & Hg5 & _).
  cbn [feed].
  rewrite (decode_kept _ f0 Ht0) by (cbn; intros ? [=]).
  cbn [_packet _last_start _last_end app length Nat.eqb].
  rewrite (decode_kept _ f1 Ht1) by (cbn; intros ? [= <-]; exact Hg1).
  cbn [_packet _last_start _last_end app length Nat.eqb].
  rewrite (decode_kept _ f2 Ht2) by (cbn; intros ? [= <-]; exact Hg2).
  cbn [_packet _last_start _last_end app length Nat.eqb].
  rewrite (decode_kept _ f3 Ht3) by (cbn; intros ? [= <-]; exact Hg3).
  cbn [_packet _last_start _last_end app length Nat.eqb].
  rewrite (decode_kept _ f4 Ht4) by (cbn; intros ? [= <-]; exact Hg4).
  cbn [_packet _last_start _last_end app length Nat.eqb].
  rewrite (decode_kept _ f5 Ht5) by (cbn; intros ? [= <-]; exact Hg5).
  cbn [_packet _last_start _last_end app length Nat.eqb].
  destruct (recompose_packet [f0; f1; f2; f3; f4; f5] le); reflexivity.
Qed.

Lemma X8_witness :
  feed __init__ (packet_events panel_corrupted 0) =
    [Ok None; Ok None; Ok None; Ok None; Ok None;
     r ← recompose_packet (packet_events panel_corrupted 0) None; Ok (Some r)].
Proof.
  apply (X8_six_close_bytes_make_a_packet __init__).
  - reflexivity.
  - reflexivity.
  - cbn. repeat split; discriminate.
Defined.

(** ** The decoders *)

Ltac lookup_key :=
  repeat (rewrite lookup_insert_ne by discriminate);
  try rewrite lookup_insert_eq.

Lemma annotate_hvac_packet_other_keys packet_data (attrs attrs' : gmap string value) key :
  annotate_hvac_packet packet_data attrs = Ok attrs' ->
  key ∉ ["source"; "room_temperature"; "unknown_data"] ->
  attrs' !! key = attrs !! key.
Proof.
  unfold annotate_hvac_packet. intros H Hkey.
  rewrite !not_elem_of_cons in Hkey. destruct Hkey as (K1 & K2 & K3 & _).
  bind_inv H. bind_inv H. repeat bind_inv H.
  injection H as <-.
  rewrite lookup_insert_ne by congruence.
  destruct (Z.land a 128 =? 0).
  - bind_inv Ha0. injection Ha0 as <-.
    rewrite !lookup_insert_ne by congruence. reflexivity.
  - injection Ha0 as <-. rewrite lookup_insert_ne by congruence. reflexivity.
Qed.

Lemma annotate_panel_packet_other_keys packet_data (attrs attrs' : gmap string value) key :
  annotate_panel_packet packet_data attrs = Ok attrs' ->
  key ∉ ["source"; "features_inquiry"; "unknown_data"; "mode"; "resistor?";
         "running"; "settings_changed"; "room_temperature"; "plasma";
         "fan_speed"; "set_temperature"; "swivel"; "swirl"] ->
  attrs' !! key = attrs !! key.
Proof.
  unfold annotate_panel_packet. intros H Hkey.
  rewrite !not_elem_of_cons in Hkey.
  destruct Hkey as (K1 & K2 & K3 & K4 & K5 & K6 & K7 & K8 & K9 & K10 & K11 & K12 & K13 & _).
  bind_inv H.
  destruct (Z.land a 144 =? 144).
  - destruct (negb _); injection H as <-;
      rewrite !lookup_insert_ne by congruence; reflexivity.
  - repeat bind_inv H. injection H as <-.
    rewrite !lookup_insert_ne by congruence. reflexivity.
Qed.

(** X9. A valid-packet record always carries the packet itself: whatever
    the decoder added, its [data] attribute is the hexadecimal text of all
    the bytes but the last and its [checksum] attribute is the last byte,
    which is the checksum the code computes over the others. *)
Theorem X9_valid_record_keeps_payload_and_checksum frames last_end r :
  recompose_packet frames last_end = Ok r ->
  type r = "valid_packet" ->
  exists packet_data c,
    concat_frames [] frames = Ok packet_data /\
    last packet_data = Some c /\
    data r !! "data" = Some (VStr (bytes_hex (slice_but_last packet_data))) /\
    data r !! "checksum" = Some (VInt (int_of_byte c)) /\
    _checksum (slice_but_last packet_data) = Ok (int_of_byte c).
Proof.
  unfold recompose_packet. intros H Ht.
  bind_inv H. rename a into packet_data.
  bind_inv H. rename a into c.
  bind_inv H. rename a into calculated.
  destruct (Z.eqb_spec (int_of_byte c) calculated) as [E|E]; cbn [negb] in H.
  2:{ do 2 bind_inv H. injection H as <-. discriminate Ht. }
  do 4 bind_inv H. injection H as <-. cbn [data].
  exists packet_data, c. split; [exact Ha|].
  unfold getitem_last in Ha0.
  destruct (last packet_data) as [c'|]; [|discriminate].
  injection Ha0 as ->. split; [reflexivity|].
  assert (Hkeep : forall key, key = "data" \/ key = "checksum" ->
            a0 !! key =
            (<["checksum" := VInt (int_of_byte c)]>
               {["data" := VStr (bytes_hex (slice_but_last packet_data))]}
             : gmap string value) !! key).
  { intros key Hkey. destruct (_ <? _).
    - eapply annotate_hvac_packet_other_keys; [exact Ha3|].
      rewrite !not_elem_of_cons.
      destruct Hkey as [-> | ->]; repeat split; try discriminate; apply not_elem_of_nil.
    - eapply annotate_panel_packet_other_keys; [exact Ha3|].
      rewrite !not_elem_of_cons.
      destruct Hkey as [-> | ->]; repeat split; try discriminate; apply not_elem_of_nil. }
  split; [|split].
  - rewrite Hkeep by auto. rewrite lookup_insert_ne by discriminate.
    apply lookup_singleton_eq.
  - rewrite Hkeep by auto. apply lookup_insert_eq.
  - rewrite E. exact Ha1.
Qed.

Lemma X9_witness :
  exists r packet_data c,
    recompose_packet (packet_events unit_reply 0) None = Ok r /\
    concat_frames [] (packet_events unit_reply 0) = Ok packet_data /\
    last packet_data = Some c /\
    data r !! "data" = Some (VStr (bytes_hex (slice_but_last packet_data))) /\
    data r !! "checksum" = Some (VInt (int_of_byte c)) /\
    _checksum (slice_but_last packet_data) = Ok (int_of_byte c).
Proof.
  assert (H : exists r, recompose_packet (packet_events unit_reply 0) None = Ok r
                        /\ type r = "valid_packet")
    by (eexists; split; reflexivity).
  destruct H as (r & Hr & Ht).
  destruct (X9_valid_record_keeps_payload_and_checksum _ _ _ Hr Ht)
    as (packet_data & c & H).
  exists r, packet_data, c. split; [exact Hr|exact H].
Defined.

Lemma flag_bits (b : byte) :
  negb (Z.land (int_of_byte b) 0x80 =? 0) = Z.testbit (int_of_byte b) 7 /\
  negb (Z.land (int_of_byte b) 0x20 =? 0) = Z.testbit (int_of_byte b) 5 /\
  negb (Z.land (int_of_byte b) 0x08 =? 0) = Z.testbit (int_of_byte b) 3 /\
  negb (Z.land (int_of_byte b) 0x04 =? 0) = Z.testbit (int_of_byte b) 2 /\
  negb (Z.land (int_of_byte b) 0x01 =? 0) = Z.testbit (int_of_byte b) 0.
Proof. destruct b; vm_compute; repeat split. Qed.

(** The mode text: the name of the table for the codes it has, the
    hexadecimal text of the code for the four others. *)
Lemma mode_text (b : byte) :
  default (hex (Z.land (int_of_byte b) 0x70)) (_MODE !! Z.land (int_of_byte b) 0x70)
  = nth (Z.to_nat (int_of_byte b / 16 mod 8))
      ["Cool"; "dH"; "Fan"; "0x30"; "Heat"; "0x50"; "0x60"; "0x70"] "".
Proof. destruct b; vm_compute; reflexivity. Qed.

(** The set temperature is written with two decimal digits, 16 to 31: the
    character of the tens and the character of the units. *)
Lemma set_temperature_text (b : byte) :
  str (Z.land (int_of_byte b) 0x0F + 16) =
    let t := int_of_byte b mod 16 + 16 in
    String (ascii_of_N (Z.to_N (48 + t / 10)))
      (String (ascii_of_N (Z.to_N (48 + t mod 10))) "").
Proof. destruct b; reflexivity. Qed.

(** X10. The panel decoder on a status packet (byte 0 without both bits of
    0x90) whose fan-speed code is in the table returns, for a payload
    p0..p4: source Panel; the mode named by bits 4-6 of p0 (Cool, dH, Fan,
    Heat, or the hexadecimal text of the code for 0x30, 0x50, 0x60, 0x70);
    the flags resistor?, running and settings_changed from bits 3, 2 and 0
    of p0; room_temperature p1 / 2 + 10; plasma from bit 7 of p2; the
    fan_speed of the table; set_temperature, the text [str ((p2 mod 16) + 16)],
    which is the two decimal digit characters (tens, then units) of that
    number between 16 and 31; swivel from bit 5 of p3; swirl from bit 0 of
    p4; and
    the unknown bytes (p0 & 0x02, 0, 0, p3 & ~0x20, p4 & ~0x01). It sets
    no features_inquiry. *)
Theorem X10_panel_status_fields b0 b1 b2 b3 b4 rest (attrs : gmap string value) speed :
  Z.land (int_of_byte b0) 0x90 <> 0x90 ->
  _FAN_SPEED !! Z.land (int_of_byte b2) 0x70 = Some speed ->
  exists attrs' u0 u3 u4,
    annotate_panel_packet (b0 :: b1 :: b2 :: b3 :: b4 :: rest) attrs = Ok attrs' /\
    attrs' !! "source" = Some (VStr "Panel") /\
    attrs' !! "mode" =
      Some (VStr (nth (Z.to_nat (int_of_byte b0 / 16 mod 8))
                    ["Cool"; "dH"; "Fan"; "0x30"; "Heat"; "0x50"; "0x60"; "0x70"] "")) /\
    attrs' !! "resistor?" = Some (VBool (Z.testbit (int_of_byte b0) 3)) /\
    attrs' !! "running" = Some (VBool (Z.testbit (int_of_byte b0) 2)) /\
    attrs' !! "settings_changed" = Some (VBool (Z.testbit (int_of_byte b0) 0)) /\
    attrs' !! "room_temperature"
      = Some (VFloat (inject_Z (int_of_byte b1) / 2 + 10)) /\
    attrs' !! "plasma" = Some (VBool (Z.testbit (int_of_byte b2) 7)) /\
    attrs' !! "fan_speed" = Some (VStr speed) /\
    attrs' !! "set_temperature" =
      Some (VStr (let t := int_of_byte b2 mod 16 + 16 in
                  String (ascii_of_N (Z.to_N (48 + t / 10)))
                    (String (ascii_of_N (Z.to_N (48 + t mod 10))) ""))) /\
    attrs' !! "set_temperature" = Some (VStr (str (int_of_byte b2 mod 16 + 16))) /\
    16 <= int_of_byte b2 mod 16 + 16 <= 31 /\
    attrs' !! "swivel" = Some (VBool (Z.testbit (int_of_byte b3) 5)) /\
    attrs' !! "swirl" = Some (VBool (Z.testbit (int_of_byte b4) 0)) /\
    attrs' !! "unknown_data" = Some (VBytes [u0; x00; x00; u3; u4]) /\
    int_of_byte u0 = Z.land (int_of_byte b0) 0x02 /\
    int_of_byte u3 = Z.land (int_of_byte b3) (Z.lnot 0x20) /\
    int_of_byte u4 = Z.land (int_of_byte b4) (Z.lnot 0x01) /\
    attrs' !! "features_inquiry" = attrs !! "features_inquiry".
Proof.
  intros Hinq Hspeed. unfold annotate_panel_packet, getitem.
  cbn [lookup list_lookup mbind result_bind].
  destruct (Z.eqb_spec (Z.land (int_of_byte b0) 144) 144) as [E|_]; [contradiction|].
  rewrite Hspeed. cbn [mbind result_bind bytes].
  destruct (byte_of_int_land_byte b0 0x02) as (u0 & -> & Hu0).
  destruct (byte_of_int_land_byte b3 (Z.lnot 0x20)) as (u3 & -> & Hu3).
  destruct (byte_of_int_land_byte b4 (Z.lnot 0x01)) as (u4 & -> & Hu4).
  change (byte_of_int 0) with (Ok x00). cbn [mbind result_bind].
  pose proof (set_temperature_text b2) as Hstr. cbv zeta in Hstr.
  assert (Hland : Z.land (int_of_byte b2) 15 = int_of_byte b2 mod 16).
  { change 15 with (Z.ones 4). rewrite Z.land_ones by lia. reflexivity. }
  pose proof (Z.mod_pos_bound (int_of_byte b2) 16 eq_refl) as Hrange.
  pose proof (flag_bits b0) as (_ & _ & F03 & F02 & F00).
  pose proof (flag_bits b2) as (F27 & _).
  pose proof (flag_bits b3) as (_ & F35 & _).
  pose proof (flag_bits b4) as (_ & _ & _ & _ & F40).
  eexists _, u0, u3, u4. split; [reflexivity|].
  cbv zeta.
  repeat split; lookup_key; try reflexivity; try assumption; try lia;
    first [ rewrite mode_text; reflexivity
          | rewrite F03; reflexivity
          | rewrite F02; reflexivity
          | rewrite F00; reflexivity
          | rewrite F27; reflexivity
          | rewrite Hstr; reflexivity
          | rewrite Hland; reflexivity
          | rewrite F35; reflexivity
          | rewrite F40; reflexivity ].
Qed.

Lemma X10_witness :
  exists attrs' u0 u3 u4,
    annotate_panel_packet panel_status (base_attributes panel_status) = Ok attrs' /\
    attrs' !! "mode" = Some (VStr "dH") /\
    attrs' !! "fan_speed" = Some (VStr "high") /\
    attrs' !! "set_temperature" = Some (VStr "21") /\
    attrs' !! "unknown_data" = Some (VBytes [u0; x00; x00; u3; u4]).
Proof.
  destruct (X10_panel_status_fields x10 x28 x25 x00 x00 [x08]
              (base_attributes panel_status) "high"
              ltac:(discriminate) eq_refl)
    as (attrs' & u0 & u3 & u4 & H & _ & Hm & _ & _ & _ & _ & _ & Hf
        & Hs & _ & _ & _ & _ & Hu & _).
  exists attrs', u0, u3, u4. repeat split; assumption.
Defined.

Lemma land_through_0x7F (x mask : Z) :
  Z.land 0x7F mask = mask -> Z.land x mask = Z.land (Z.land x 0x7F) mask.
Proof. intros H. rewrite <- Z.land_assoc, H. reflexivity. Qed.

(** X11. The status decoding drops bit 7 of byte 0: it is in no field and
    not in the unknown bytes. Two packets that are both status packets and
    differ only in that bit are decoded to the same attributes (or raise
    alike). *)
Theorem X11_status_drops_bit7_of_byte0 b0 b0' tail (attrs : gmap string value) :
  Z.land (int_of_byte b0) 0x7F = Z.land (int_of_byte b0') 0x7F ->
  Z.land (int_of_byte b0) 0x90 <> 0x90 ->
  Z.land (int_of_byte b0') 0x90 <> 0x90 ->
  annotate_panel_packet (b0 :: tail) attrs = annotate_panel_packet (b0' :: tail) attrs.
Proof.
  intros Hlow Hinq Hinq'. unfold annotate_panel_packet, getitem.
  cbn [lookup list_lookup mbind result_bind].
  destruct (Z.eqb_spec (Z.land (int_of_byte b0) 144) 144) as [E|_]; [contradiction|].
  destruct (Z.eqb_spec (Z.land (int_of_byte b0') 144) 144) as [E|_]; [contradiction|].
  rewrite !(land_through_0x7F (int_of_byte b0) 112),
          !(land_through_0x7F (int_of_byte b0) 8),
          !(land_through_0x7F (int_of_byte b0) 4),
          !(land_through_0x7F (int_of_byte b0) 1),
          !(land_through_0x7F (int_of_byte b0) 2) by reflexivity.
  rewrite Hlow.
  rewrite <- !(land_through_0x7F (int_of_byte b0') 112),
          <- !(land_through_0x7F (int_of_byte b0') 8),
          <- !(land_through_0x7F (int_of_byte b0') 4),
          <- !(land_through_0x7F (int_of_byte b0') 1),
          <- !(land_through_0x7F (int_of_byte b0') 2) by reflexivity.
  reflexivity.
Qed.

Lemma X11_witness :
  annotate_panel_packet [x00; x28; x25; x00; x00; x27] ∅ =
  annotate_panel_packet [x80; x28; x25; x00; x00; x27] ∅.
Proof.
  apply X11_status_drops_bit7_of_byte0; [reflexivity|discriminate|discriminate].
Defined.

(** X12. The unit decoding loses nothing of the payload: from attributes
    without a room temperature, two packets decoded to the same attributes
    have the same five payload bytes. *)
Theorem X12_unit_decoding_is_injective b0 b1 b2 b3 b4 rest c0 c1 c2 c3 c4 rest'
    (attrs : gmap string value) :
  attrs !! "room_temperature" = None ->
  annotate_hvac_packet (b0 :: b1 :: b2 :: b3 :: b4 :: rest) attrs =
  annotate_hvac_packet (c0 :: c1 :: c2 :: c3 :: c4 :: rest') attrs ->
  [b0; b1; b2; b3; b4] = [c0; c1; c2; c3; c4].
Proof.
  intros Hfresh H.
  destruct (Z.testbit (int_of_byte b1) 7) eqn:Hb;
    destruct (Z.testbit (int_of_byte c1) 7) eqn:Hc.
  - rewrite !annotate_hvac_packet_no_reading in H by assumption.
    injection H as H.
    apply (f_equal (fun m : gmap string value => m !! "unknown_data")) in H.
    cbv beta in H. rewrite !lookup_insert_eq in H. congruence.
  - rewrite annotate_hvac_packet_no_reading in H by assumption.
    rewrite annotate_hvac_packet_reading in H by assumption.
    injection H as H.
    apply (f_equal (fun m : gmap string value => m !! "room_temperature")) in H.
    cbv beta in H.
    rewrite !(lookup_insert_ne _ "unknown_data"), lookup_insert_eq in H by discriminate.
    rewrite lookup_insert_ne, Hfresh in H by discriminate. discriminate.
  - rewrite annotate_hvac_packet_reading in H by assumption.
    rewrite annotate_hvac_packet_no_reading in H by assumption.
    injection H as H.
    apply (f_equal (fun m : gmap string value => m !! "room_temperature")) in H.
    cbv beta in H.
    rewrite !(lookup_insert_ne _ "unknown_data"), lookup_insert_eq in H by discriminate.
    rewrite lookup_insert_ne, Hfresh in H by discriminate. discriminate.
  - rewrite !annotate_hvac_packet_reading in H by assumption.
    injection H as H.
    pose proof (f_equal (fun m : gmap string value => m !! "unknown_data") H) as Hu.
    pose proof (f_equal (fun m : gmap string value => m !! "room_temperature") H) as Ht.
    cbv beta in Hu, Ht.
    rewrite !lookup_insert_eq in Hu.
    rewrite !(lookup_insert_ne _ "unknown_data") in Ht by discriminate.
    rewrite !lookup_insert_eq in Ht.
    injection Hu as -> -> -> ->.
    injection Ht as Ht.
    f_equal. f_equal. apply int_of_byte_inj. lia.
Qed.

Lemma X12_witness :
  [xaa; x28; x00; x00; x00] = [xaa; x28; x00; x00; x00].
Proof.
  exact (X12_unit_decoding_is_injective xaa x28 x00 x00 x00 [x87]
           xaa x28 x00 x00 x00 [x00] ∅ eq_refl eq_refl).
Defined.

(** X13. On every features inquiry (byte 0 with both bits of 0x90), whatever
    the other bytes and however short the packet, the panel decoder returns
    without raising; it sets source Panel and features_inquiry, always
    records as unknown bytes a zero followed by bytes 1 to 3 (as many as
    there are), and writes no other attribute: no mode, flag, temperature
    or fan speed. *)
Theorem X13_inquiry_decoding b0 tail (attrs : gmap string value) :
  Z.land (int_of_byte b0) 0x90 = 0x90 ->
  exists attrs',
    annotate_panel_packet (b0 :: tail) attrs = Ok attrs' /\
    attrs' !! "source" = Some (VStr "Panel") /\
    attrs' !! "features_inquiry" = Some (VBool true) /\
    attrs' !! "unknown_data" = Some (VBytes (x00 :: take 3 tail)) /\
    forall key, key ∉ ["source"; "features_inquiry"; "unknown_data"] ->
                attrs' !! key = attrs !! key.
Proof.
  intros H. eexists. split; [apply annotate_panel_packet_inquiry, H|].
  split; [lookup_key; reflexivity|].
  split; [lookup_key; reflexivity|].
  split; [lookup_key; reflexivity|].
  intros key Hkey. rewrite !not_elem_of_cons in Hkey.
  destruct Hkey as (K1 & K2 & K3 & _).
  rewrite !lookup_insert_ne by congruence. reflexivity.
Qed.

Lemma X13_witness :
  exists attrs',
    annotate_panel_packet [x90; x01; x02; x03; x04; x00] ∅ = Ok attrs' /\
    attrs' !! "unknown_data" = Some (VBytes [x00; x01; x02; x03]) /\
    attrs' !! "mode" = None.
Proof.
  destruct (X13_inquiry_decoding x90 [x01; x02; x03; x04; x00] ∅ eq_refl)
    as (attrs' & H & _ & _ & Hu & Hk).
  exists attrs'. split; [exact H|]. split; [exact Hu|].
  rewrite Hk; [reflexivity|].
  rewrite !not_elem_of_cons. repeat split; try discriminate. apply not_elem_of_nil.
Defined.

(** X14. The 300 ms window is counted from the end of the last record,
    whatever its kind. After a call that returned a record [r], valid or
    invalid-checksum, six close byte events with a right checksum whose
    first starts less than 300 ms after the end of [r] are decoded by the
    unit decoder, and their record moves the window again. *)
Theorem X14_reply_after_any_record self frame self' r
    f0 f1 f2 f3 f4 f5 b0 b1 b2 b3 b4 b5 :
  decode self frame = (self', Ok (Some r)) ->
  Forall2 carries [f0; f1; f2; f3; f4; f5] [b0; b1; b2; b3; b4; b5] ->
  type f0 = "data" ->
  close_run (end_time f0) [f1; f2; f3; f4; f5] ->
  int_of_byte b5 = spec_checksum [b0; b1; b2; b3; b4] ->
  start_time f0 - end_time r < GraphTimeDelta 0 300 ->
  let p := [b0; b1; b2; b3; b4; b5] in
  exists attrs,
    annotate_hvac_packet p (base_attributes p) = Ok attrs /\
    feed self' [f0; f1; f2; f3; f4; f5] =
      [Ok None; Ok None; Ok None; Ok None; Ok None;
       Ok (Some (mkAnalyzerFrame "valid_packet" (start_time f0) (end_time f5) attrs))] /\
    _last_end (final_state self' [f0; f1; f2; f3; f4; f5]) = Some (end_time f5).
Proof.
  intros Hd Hc Ht0 Hrun Hsum Hgap p. subst p.
  apply decode_emits in Hd as (_ & g0 & g1 & g2 & g3 & g4 & _ & _ & ->).
  destruct (annotate_hvac_packet_Ok b0 b1 b2 b3 b4 [b5]
              (base_attributes [b0; b1; b2; b3; b4; b5]))
    as (attrs & Ha).
  exists attrs. split; [exact Ha|].
  assert (Hr : recompose_packet [f0; f1; f2; f3; f4; f5] (Some (end_time r)) =
               Ok (mkAnalyzerFrame "valid_packet" (start_time f0) (end_time f5) attrs)).
  { rewrite (recompose_packet_six _ _ _ _ _ _ _ _ _ _ _ _ _ Hc). cbv zeta.
    rewrite Hsum, Z.eqb_refl. cbn [negb classification_gap].
    destruct (Z.ltb_spec (start_time f0 - end_time r) (GraphTimeDelta 0 300)); [|lia].
    rewrite Ha. reflexivity. }
  destruct Hrun as (Ht1 & Hg1 & Ht2 & Hg2 & Ht3 & Hg3 & Ht4 & Hg4 & Ht5 & Hg5 & _).
  cbn [feed final_state].
  rewrite (decode_kept _ f0 Ht0) by (cbn; intros ? [=]).
  cbn [_packet _last_start _last_end app length Nat.eqb fst].
  rewrite (decode_kept _ f1 Ht1) by (cbn; intros ? [= <-]; exact Hg1).
  cbn [_packet _last_start _last_end app length Nat.eqb fst].
  rewrite (decode_kept _ f2 Ht2) by (cbn; intros ? [= <-]; exact Hg2).
  cbn [_packet _last_start _last_end app length Nat.eqb fst].
  rewrite (decode_kept _ f3 Ht3) by (cbn; intros ? [= <-]; exact Hg3).
  cbn [_packet _last_start _last_end app length Nat.eqb fst].
  rewrite (decode_kept _ f4 Ht4) by (cbn; intros ? [= <-]; exact Hg4).
  cbn [_packet _last_start _last_end app length Nat.eqb fst].
  rewrite (decode_kept _ f5 Ht5) by (cbn; intros ? [= <-]; exact Hg5).
  cbn [_packet _last_start _last_end app length Nat.eqb fst].
  rewrite Hr. cbn [fst _last_end end_time]. split; reflexivity.
Qed.

Lemma X14_witness :
  let buffered := take 5 (packet_events panel_corrupted 0) in
  let sixth := byte_event x09 500000000 596000000 in
  let reply := packet_events unit_reply 700000000 in
  exists self' attrs,
    fst (decode (mkHla None None buffered) sixth) = self' /\
    annotate_hvac_packet unit_reply (base_attributes unit_reply) = Ok attrs /\
    feed self' reply =
      [Ok None; Ok None; Ok None; Ok None; Ok None;
       Ok (Some (mkAnalyzerFrame "valid_packet" 700000000 1296000000 attrs))].
Proof.
  intros buffered sixth reply.
  assert (H : exists self' r,
             decode (mkHla None None buffered) sixth = (self', Ok (Some r))
             /\ end_time r = 596000000)
    by (do 2 eexists; split; reflexivity).
  destruct H as (self' & r & H & He).
  assert (Hc : Forall2 carries reply unit_reply) by (repeat constructor).
  destruct (X14_reply_after_any_record _ _ _ _ _ _ _ _ _ _ _ _ _ _ _ _ H Hc)
    as (attrs & Ha & Hf & _).
  - reflexivity.
  - cbn. repeat split; discriminate.
  - reflexivity.
  - rewrite He. reflexivity.
  - exists self', attrs. rewrite H. split; [reflexivity|]. split; [exact Ha|exact Hf].
Defined.
